(** * Sentiment-Analysis: the text-metrics engine and its batch driver

    A shallow embedding of [src/sentiment_analyzer.py] and [src/main.py].

    - Texts are ASCII strings ([string]); Python's [str] built-ins used by
      the code ([isalnum], [lower], [split], [join], [in]) are written out
      on ASCII characters in module [Py].  Module [Utf8] holds [lower],
      [isalnum] and [clean_text] on UTF-8 text with U+0130, the one
      character whose lowercase is not alphanumeric; the two agree on
      every text whose tokens are ASCII.
    - Python [int] is [Z]; Python [float] is IEEE binary64, taken from
      Rocq's primitive floats, with [int -> float] conversion rounding to
      nearest even as CPython does.  A [ZeroDivisionError] is [None].
    - NLTK (Punkt sentence splitter, Treebank word tokenizer, the stopword
      corpus and the opinion lexicon) is not part of the repository: the
      analyzer is parameterised by a record [NLTK] holding them.
    - The fetching half of [extract_article_info] (HTTP and HTML parsing)
      is the record [Web].
    - Module [Model] holds one concrete [NLTK] and one concrete [Web], to
      run the code on explicit inputs; module [Spec] holds the
      specification's own definitions, to compare the code with. *)

From Stdlib Require Import ZArith List Bool String Ascii Lia Permutation.
From Stdlib Require Import Floats.PrimFloat Floats.SpecFloat Floats.FloatOps.
Import ListNotations.
Local Open Scope string_scope.
Local Open Scope Z_scope.

(** ** Python built-ins on ASCII text *)

Module Py.

(** A raised exception aborts the computation; [let*] threads it. *)
Definition bind {A B : Type} (m : option A) (k : A -> option B) : option B :=
  match m with
  | Some a => k a
  | None => None
  end.

Definition code (c : ascii) : N := N_of_ascii c.

Definition between (lo hi : N) (c : ascii) : bool :=
  ((lo <=? code c) && (code c <=? hi))%N.

Definition isdigit_char (c : ascii) : bool := between 48 57 c.
Definition isupper_char (c : ascii) : bool := between 65 90 c.
Definition islower_char (c : ascii) : bool := between 97 122 c.

Definition isalnum_char (c : ascii) : bool :=
  isdigit_char c || isupper_char c || islower_char c.

(** Whitespace as [str.split()] sees it: TAB..CR, FS..US and the space. *)
Definition isspace_char (c : ascii) : bool :=
  between 9 13 c || between 28 32 c.

Fixpoint all_chars (p : ascii -> bool) (s : string) : bool :=
  match s with
  | EmptyString => true
  | String c s' => p c && all_chars p s'
  end.

(** [s.isalnum()]: at least one character, and all of them alphanumeric. *)
Definition isalnum (s : string) : bool :=
  match s with
  | EmptyString => false
  | _ => all_chars isalnum_char s
  end.

Definition lower_char (c : ascii) : ascii :=
  if isupper_char c then ascii_of_N (code c + 32) else c.

(** [s.lower()] *)
Fixpoint lower (s : string) : string :=
  match s with
  | EmptyString => EmptyString
  | String c s' => String (lower_char c) (lower s')
  end.

(** [sep.join(ws)] *)
Fixpoint join (sep : string) (ws : list string) : string :=
  match ws with
  | [] => EmptyString
  | [w] => w
  | w :: ws' => w ++ sep ++ join sep ws'
  end.

Definition flush (cur : string) : list string :=
  match cur with
  | EmptyString => []
  | _ => [cur]
  end.

(** [s.split()]: maximal runs of non-whitespace characters; [cur] is the
    run being read. *)
Fixpoint split_from (cur : string) (s : string) : list string :=
  match s with
  | EmptyString => flush cur
  | String c s' =>
      if isspace_char c then flush cur ++ split_from EmptyString s'
      else split_from (cur ++ String c EmptyString) s'
  end.

Definition split (s : string) : list string := split_from EmptyString s.

(** [len(s)] and [len(l)] as Python ints. *)
Definition len (s : string) : Z := Z.of_nat (String.length s).
Definition len_list {A : Type} (l : list A) : Z := Z.of_nat (List.length l).

(** [w in words] for a set (or list) of strings. *)
Definition mem (w : string) (words : list string) : bool :=
  existsb (String.eqb w) words.

(** [sum(1 for x in l if p x)] *)
Definition sum_ones {A : Type} (p : A -> bool) (l : list A) : Z :=
  fold_left (fun acc x => if p x then acc + 1 else acc) l 0.

(** [sum(f x for x in l)] *)
Definition sum_of {A : Type} (f : A -> Z) (l : list A) : Z :=
  fold_left (fun acc x => acc + f x) l 0.

Fixpoint lstrip (s : string) : string :=
  match s with
  | EmptyString => EmptyString
  | String c s' => if isspace_char c then lstrip s' else s
  end.

Fixpoint rstrip (s : string) : string :=
  match s with
  | EmptyString => EmptyString
  | String c s' =>
      match rstrip s' with
      | EmptyString => if isspace_char c then EmptyString else String c EmptyString
      | r => String c r
      end
  end.

(** [s.strip()] *)
Definition strip (s : string) : string := rstrip (lstrip s).

(** Truth value of an optional string: [None] and [""] are falsy. *)
Definition truthy (s : option string) : bool :=
  match s with
  | Some (String _ _) => true
  | _ => false
  end.

(** [float(z)]: the binary64 nearest to [z], ties to even. *)
Definition float_of_int (z : Z) : float :=
  SF2Prim (binary_normalize prec emax z 0 false).

(** [a / b] on ints: true division, [ZeroDivisionError] when [b = 0].
    (CPython rounds the exact quotient once; that is this value whenever
    both operands are below 2^53 in magnitude, as every count here is.) *)
Definition true_div (a b : Z) : option float :=
  if b =? 0 then None
  else Some (PrimFloat.div (float_of_int a) (float_of_int b)).

End Py.

Notation "'let*' x ':=' m 'in' k" := (Py.bind m (fun x => k))
  (at level 10, x pattern, m at level 100, k at level 200).

(** ** The regular expression of [count_personal_pronouns] *)

Module Re.

(** [\w] on ASCII: letters, digits and the underscore. *)
Definition is_word_char (c : ascii) : bool :=
  Py.isalnum_char c || Ascii.eqb c "_"%char.

Definition is_word (c : option ascii) : bool :=
  match c with
  | Some c => is_word_char c
  | None => false
  end.

(** [\b] between the character before the position and the one after;
    the two ends of the text count as non-word. *)
Definition boundary (before after : option ascii) : bool :=
  xorb (is_word before) (is_word after).

Definition head (s : string) : option ascii :=
  match s with
  | EmptyString => None
  | String c _ => Some c
  end.

(** [strip_prefix w prev s]: when [w] is a prefix of [s], the character
    last read (the last of [w], or [prev] for an empty [w]) and what
    follows [w] in [s]. *)
Fixpoint strip_prefix (w : string) (prev : option ascii) (s : string)
  : option (option ascii * string) :=
  match w with
  | EmptyString => Some (prev, s)
  | String a w' =>
      match s with
      | EmptyString => None
      | String c s' =>
          if Ascii.eqb a c then strip_prefix w' (Some c) s' else None
      end
  end.

(** The alternation [(?:w1|...|wn)\b] at one position: the first
    alternative, in order, that is a prefix of [s] and ends at a word
    boundary. *)
Fixpoint match_alt (alts : list string) (prev : option ascii) (s : string)
  : option string :=
  match alts with
  | [] => None
  | w :: alts' =>
      match strip_prefix w prev s with
      | Some (last, rest) =>
          if boundary last (head rest) then Some w
          else match_alt alts' prev s
      | None => match_alt alts' prev s
      end
  end.

(** [\b(?:w1|...|wn)\b] at one position. *)
Definition match_here (alts : list string) (prev : option ascii) (s : string)
  : option string :=
  if boundary prev (head s) then match_alt alts prev s else None.

(** The left-to-right scan of [re.findall]: [prev] is the character
    before the position, [skip] the number of characters still inside
    the match found last.  (Alternatives are non-empty literals, so a
    match always consumes a character.) *)
Fixpoint scan (alts : list string) (prev : option ascii) (skip : nat)
  (s : string) : list string :=
  match s with
  | EmptyString => []
  | String c s' =>
      match skip with
      | S k => scan alts (Some c) k s'
      | O =>
          match match_here alts prev s with
          | Some w => w :: scan alts (Some c) (pred (String.length w)) s'
          | None => scan alts (Some c) O s'
          end
      end
  end.

(** The character before the position reached after reading [w]. *)
Fixpoint last_or (prev : option ascii) (w : string) : option ascii :=
  match w with
  | EmptyString => prev
  | String c w' => last_or (Some c) w'
  end.

(** A literal alternative made of word characters only, and not empty. *)
Definition is_literal_word (w : string) : bool :=
  match w with
  | EmptyString => false
  | _ => Py.all_chars is_word_char w
  end.

(** [re.findall(r'\b(?:w1|...|wn)\b', text)] *)
Definition findall_words (alts : list string) (text : string) : list string :=
  scan alts None O text.

End Re.

(** ** NLTK, as the analyzer uses it *)

Record NLTK : Type := {
  (** [nltk.tokenize.sent_tokenize] (Punkt) *)
  sent_tokenize : string -> list string;
  (** the Treebank word tokenizer, applied to one sentence *)
  treebank_tokenize : string -> list string;
  (** [stopwords.words('english')] *)
  stop_words : list string;
  (** [opinion_lexicon.words("positive-words.txt")] *)
  positive_words : list string;
  (** [opinion_lexicon.words("negative-words.txt")] *)
  negative_words : list string
}.

(** [nltk.tokenize.word_tokenize]: NLTK defines it as the Treebank tokens
    of each sentence that [sent_tokenize] returns, in order. *)
Definition word_tokenize (nltk : NLTK) (text : string) : list string :=
  flat_map (treebank_tokenize nltk) (sent_tokenize nltk text).

(** ** class TextAnalyzer *)

Definition vowels : string := "aeiou".

(** [char in vowels] for a single character. *)
Fixpoint char_in (c : ascii) (s : string) : bool :=
  match s with
  | EmptyString => false
  | String a s' => Ascii.eqb c a || char_in c s'
  end.

(** One round of the loop of [count_syllables]; the state is
    [(syllables, prev_char_was_vowel)]. *)
Definition count_syllables_step (st : Z * bool) (char : ascii) : Z * bool :=
  let (syllables, prev_char_was_vowel) := st in
  if char_in char vowels && negb prev_char_was_vowel then (syllables + 1, true)
  else if negb (char_in char vowels) then (syllables, false)
  else (syllables, prev_char_was_vowel).

Fixpoint count_syllables_loop (st : Z * bool) (word : string) : Z * bool :=
  match word with
  | EmptyString => st
  | String char word' => count_syllables_loop (count_syllables_step st char) word'
  end.

Definition count_syllables (word : string) : Z :=
  fst (count_syllables_loop (0, false) word).

Definition pronouns : list string := ["i"; "we"; "my"; "ours"; "us"].

Definition count_personal_pronouns (text : string) : Z :=
  let personal_pronouns := Re.findall_words pronouns (Py.lower text) in
  Py.len_list personal_pronouns.

(** 0.000001 and 0.4 as Python reads them: the nearest binary64 values. *)
Definition epsilon : float := 0x1.0c6f7a0b5ed8dp-20%float.
Definition zero_point_four : float := 0x1.999999999999ap-2%float.

Section Analyzer.

Variable nltk : NLTK.

Definition clean_text (text : string) : string :=
  let tokens := word_tokenize nltk text in
  let words := map Py.lower (filter Py.isalnum tokens) in
  let words := filter (fun word => negb (Py.mem word (stop_words nltk))) words in
  Py.join " " words.

Definition sentiment_analysis (text : list string) : Z * Z * float * float :=
  let positive_score := Py.sum_ones (fun word => Py.mem word (positive_words nltk)) text in
  let negative_score := Py.sum_ones (fun word => Py.mem word (negative_words nltk)) text in
  let polarity_score :=
    PrimFloat.div (Py.float_of_int (positive_score - negative_score))
      (PrimFloat.add (Py.float_of_int (positive_score + negative_score)) epsilon) in
  let subjectivity_score :=
    PrimFloat.div (Py.float_of_int (positive_score + negative_score))
      (PrimFloat.add (Py.float_of_int (Py.len_list text)) epsilon) in
  (positive_score, negative_score, polarity_score, subjectivity_score).

Definition is_complex (word : string) : bool :=
  (6 <? Py.len word) && (3 <? count_syllables word).

Definition readability_analysis (text : string) : option (float * Z * float) :=
  let sentences := sent_tokenize nltk text in
  let num_sentences := Py.len_list sentences in
  let total_words :=
    Py.sum_of (fun sentence => Py.len_list (word_tokenize nltk sentence)) sentences in
  let* avg_words_per_sentence := Py.true_div total_words num_sentences in
  let words := Py.split (clean_text text) in
  let complex_word_count := Py.sum_ones is_complex words in
  let* ratio := Py.true_div complex_word_count (Py.len_list words) in
  let fog_index :=
    PrimFloat.mul zero_point_four (PrimFloat.add avg_words_per_sentence ratio) in
  Some (avg_words_per_sentence, complex_word_count, fog_index).

Definition syllable_count_per_word (text : string) : option float :=
  let words := Py.split (clean_text text) in
  let total_syllables := Py.sum_of count_syllables words in
  Py.true_div total_syllables (Py.len_list words).

Definition average_word_length (text : string) : option float :=
  let words := Py.split (clean_text text) in
  let total_characters := Py.sum_of Py.len words in
  Py.true_div total_characters (Py.len_list words).

(** The dictionary that [analyze_text] returns. *)
Record Metrics : Type := {
  POSITIVE_SCORE : Z;
  NEGATIVE_SCORE : Z;
  POLARITY_SCORE : float;
  SUBJECTIVITY_SCORE : float;
  AVG_SENTENCE_LENGTH : float;
  PERCENTAGE_OF_COMPLEX_WORDS : float;
  FOG_INDEX : float;
  AVG_NUMBER_OF_WORDS_PER_SENTENCE : float;
  COMPLEX_WORD_COUNT : Z;
  WORD_COUNT : Z;
  SYLLABLE_PER_WORD : float;
  PERSONAL_PRONOUNS : Z;
  AVG_WORD_LENGTH : float
}.

Definition analyze_text (text : string) : option Metrics :=
  let cleaned_text := clean_text text in
  let tokenized_text := word_tokenize nltk cleaned_text in
  let '(positive_score, negative_score, polarity_score, subjectivity_score) :=
    sentiment_analysis tokenized_text in
  let* (avg_words_per_sentence, complex_word_count, fog_index) :=
    readability_analysis cleaned_text in
  let* syllable_per_word := syllable_count_per_word cleaned_text in
  let personal_pronouns := count_personal_pronouns cleaned_text in
  let* avg_word_length := average_word_length cleaned_text in
  let* percentage := Py.true_div complex_word_count (Py.len_list tokenized_text) in
  Some {|
    POSITIVE_SCORE := positive_score;
    NEGATIVE_SCORE := negative_score;
    POLARITY_SCORE := polarity_score;
    SUBJECTIVITY_SCORE := subjectivity_score;
    AVG_SENTENCE_LENGTH := avg_words_per_sentence;
    PERCENTAGE_OF_COMPLEX_WORDS := percentage;
    FOG_INDEX := fog_index;
    AVG_NUMBER_OF_WORDS_PER_SENTENCE := avg_words_per_sentence;
    COMPLEX_WORD_COUNT := complex_word_count;
    WORD_COUNT := Py.len_list tokenized_text;
    SYLLABLE_PER_WORD := syllable_per_word;
    PERSONAL_PRONOUNS := personal_pronouns;
    AVG_WORD_LENGTH := avg_word_length
  |}.

End Analyzer.

(** ** Fetching, and the two batch drivers *)

(** What [requests.get] and [BeautifulSoup] contribute. *)
Record Web : Type := {
  page : Type;
  (** [requests.get(url)] parsed by [BeautifulSoup]; [None] when an
      exception is raised inside the [try] block. *)
  get_soup : string -> option page;
  (** [soup.find('h1', class_='entry-title')], as the element's
      [get_text()]; [None] when there is no such element. *)
  find_entry_title : page -> option string;
  (** [soup.find('div', class_='td-post-content tagdiv-type')], likewise. *)
  find_post_content : page -> option string
}.

Definition extract_article_info (web : Web) (url : string)
  : option string * option string :=
  match get_soup web url with
  | Some soup =>
      let article_title := option_map Py.strip (find_entry_title web soup) in
      let article_text := option_map Py.strip (find_post_content web soup) in
      (article_title, article_text)
  | None => (None, None)
  end.

(** A row of [input.xlsx]. *)
Record InputRow : Type := {
  URL_ID : string;
  URL : string
}.

(** A row of [Output.xlsx]: the metrics with the two keys [main] adds. *)
Record OutputRow : Type := {
  analysis_results : Metrics;
  out_URL_ID : string;
  out_URL : string
}.

(** A row of [extracted_articles.xlsx]. *)
Record Article : Type := {
  art_URL : string;
  Article_Title : option string;
  Article_Text : string;
  Positive_Score : Z;
  Negative_Score : Z;
  Polarity_Score : float;
  Subjectivity_Score : float;
  Avg_Words_Per_Sentence : float;
  Complex_Word_Count : Z;
  Fog_Index : float;
  Syllable_Per_Word : float;
  Personal_Pronouns : Z;
  Avg_Word_Length : float
}.

Section Drivers.

Variable web : Web.
Variable nltk : NLTK.

(** The [for] loop of [main] in sentiment_analyzer.py; [results] is the
    list built so far, [None] an exception that ends the run. *)
Fixpoint main_loop (rows : list InputRow) (results : list OutputRow)
  : option (list OutputRow) :=
  match rows with
  | [] => Some results
  | row :: rows' =>
      let url_id := URL_ID row in
      let url := URL row in
      let (article_title, article_text) := extract_article_info web url in
      if Py.truthy article_title && Py.truthy article_text then
        match article_text with
        | Some text =>
            let* analysis := analyze_text nltk text in
            main_loop rows'
              (results ++ [ {| analysis_results := analysis;
                               out_URL_ID := url_id;
                               out_URL := url |} ])
        | None => main_loop rows' results
        end
      else main_loop rows' results
  end.

(** [main]: the rows handed to [pd.DataFrame] for Output.xlsx. *)
Definition main (df : list InputRow) : option (list OutputRow) :=
  main_loop df [].

(** The [for] loop of [scrape_articles] in main.py. *)
Fixpoint scrape_loop (rows : list InputRow) (articles : list Article)
  : option (list Article) :=
  match rows with
  | [] => Some articles
  | row :: rows' =>
      let url := URL row in
      let (article_title, article_text) := extract_article_info web url in
      if Py.truthy article_title && Py.truthy article_text then
        match article_text with
        | Some text =>
            let cleaned_text := clean_text nltk text in
            let tokenized_text := word_tokenize nltk cleaned_text in
            let '(positive_score, negative_score, polarity_score, subjectivity_score) :=
              sentiment_analysis nltk tokenized_text in
            let* (avg_words_per_sentence, complex_word_count, fog_index) :=
              readability_analysis nltk cleaned_text in
            let* syllable_per_word := syllable_count_per_word nltk cleaned_text in
            let personal_pronouns := count_personal_pronouns cleaned_text in
            let* avg_word_length := average_word_length nltk cleaned_text in
            scrape_loop rows'
              (articles ++ [ {| art_URL := url;
                                Article_Title := article_title;
                                Article_Text := text;
                                Positive_Score := positive_score;
                                Negative_Score := negative_score;
                                Polarity_Score := polarity_score;
                                Subjectivity_Score := subjectivity_score;
                                Avg_Words_Per_Sentence := avg_words_per_sentence;
                                Complex_Word_Count := complex_word_count;
                                Fog_Index := fog_index;
                                Syllable_Per_Word := syllable_per_word;
                                Personal_Pronouns := personal_pronouns;
                                Avg_Word_Length := avg_word_length |} ])
        | None => scrape_loop rows' articles
        end
      else scrape_loop rows' articles
  end.

Definition scrape_articles (df : list InputRow) : option (list Article) :=
  scrape_loop df [].

End Drivers.

(** ** A concrete NLTK and a concrete site, to run the code on *)

Module Model.

Definition is_terminator (c : ascii) : bool :=
  Ascii.eqb c "."%char || Ascii.eqb c "!"%char || Ascii.eqb c "?"%char.

Definition at_break (s : string) : bool :=
  match s with
  | EmptyString => true
  | String c _ => Py.isspace_char c
  end.

(** Modelled from the spec: the sentence-boundary tokenizer of section
    4.3 (NLTK's Punkt is not in the repository).  A sentence ends at a
    [.], [!] or [?] that is followed by whitespace or by the end of the
    text; whitespace between sentences is dropped.  Punkt's abbreviation
    heuristics are left out. *)
Fixpoint sentences_from (cur : string) (s : string) : list string :=
  match s with
  | EmptyString => Py.flush cur
  | String c s' =>
      if is_terminator c && at_break s'
      then (cur ++ String c EmptyString) :: sentences_from EmptyString s'
      else
        match cur with
        | EmptyString =>
            if Py.isspace_char c then sentences_from EmptyString s'
            else sentences_from (String c EmptyString) s'
        | _ => sentences_from (cur ++ String c EmptyString) s'
        end
  end.

Definition split_sentences (text : string) : list string :=
  sentences_from EmptyString text.

(** Modelled from the spec: the word tokenizer of section 4.1 step 1
    (NLTK's Treebank tokenizer is not in the repository): letters and
    digits form tokens, whitespace separates them, and every other
    character is a token by itself.  Treebank's contraction rules are
    left out. *)
Fixpoint tokens_from (cur : string) (s : string) : list string :=
  match s with
  | EmptyString => Py.flush cur
  | String c s' =>
      if Py.isalnum_char c then tokens_from (cur ++ String c EmptyString) s'
      else if Py.isspace_char c then Py.flush cur ++ tokens_from EmptyString s'
      else Py.flush cur ++ String c EmptyString :: tokens_from EmptyString s'
  end.

Definition split_tokens (sentence : string) : list string :=
  tokens_from EmptyString sentence.

(** Modelled from the spec: the fixed English stopword set of section
    4.1 step 4; the entries are the 179 words of NLTK's [stopwords]
    corpus, file [english]. *)
Definition english_stopwords : list string :=
  [ "i"; "me"; "my"; "myself"; "we"; "our"; "ours"; "ourselves"; "you";
    "you're"; "you've"; "you'll"; "you'd"; "your"; "yours"; "yourself";
    "yourselves"; "he"; "him"; "his"; "himself"; "she"; "she's"; "her";
    "hers"; "herself"; "it"; "it's"; "its"; "itself"; "they"; "them";
    "their"; "theirs"; "themselves"; "what"; "which"; "who"; "whom";
    "this"; "that"; "that'll"; "these"; "those"; "am"; "is"; "are"; "was";
    "were"; "be"; "been"; "being"; "have"; "has"; "had"; "having"; "do";
    "does"; "did"; "doing"; "a"; "an"; "the"; "and"; "but"; "if"; "or";
    "because"; "as"; "until"; "while"; "of"; "at"; "by"; "for"; "with";
    "about"; "against"; "between"; "into"; "through"; "during"; "before";
    "after"; "above"; "below"; "to"; "from"; "up"; "down"; "in"; "out";
    "on"; "off"; "over"; "under"; "again"; "further"; "then"; "once";
    "here"; "there"; "when"; "where"; "why"; "how"; "all"; "any"; "both";
    "each"; "few"; "more"; "most"; "other"; "some"; "such"; "no"; "nor";
    "not"; "only"; "own"; "same"; "so"; "than"; "too"; "very"; "s"; "t";
    "can"; "will"; "just"; "don"; "don't"; "should"; "should've"; "now";
    "d"; "ll"; "m"; "o"; "re"; "ve"; "y"; "ain"; "aren"; "aren't";
    "couldn"; "couldn't"; "didn"; "didn't"; "doesn"; "doesn't"; "hadn";
    "hadn't"; "hasn"; "hasn't"; "haven"; "haven't"; "isn"; "isn't"; "ma";
    "mightn"; "mightn't"; "mustn"; "mustn't"; "needn"; "needn't"; "shan";
    "shan't"; "shouldn"; "shouldn't"; "wasn"; "wasn't"; "weren";
    "weren't"; "won"; "won't"; "wouldn"; "wouldn't" ].

(** A few entries of each half of the opinion lexicon. *)
Definition some_positive_words : list string :=
  [ "good"; "great"; "excellent"; "love"; "happy"; "wonderful" ].

Definition some_negative_words : list string :=
  [ "bad"; "poor"; "terrible"; "hate"; "sad"; "awful" ].

Definition nltk : NLTK := {|
  sent_tokenize := split_sentences;
  treebank_tokenize := split_tokens;
  stop_words := english_stopwords;
  positive_words := some_positive_words;
  negative_words := some_negative_words
|}.

(** The lexicons of the spec's sentiment example: [{good}] and [{bad}]. *)
Definition good_bad : NLTK := {|
  sent_tokenize := split_sentences;
  treebank_tokenize := split_tokens;
  stop_words := english_stopwords;
  positive_words := ["good"];
  negative_words := ["bad"]
|}.

(** [nltk] with [us] added to the stopwords. *)
Definition nltk_with_us : NLTK := {|
  sent_tokenize := split_sentences;
  treebank_tokenize := split_tokens;
  stop_words := "us" :: english_stopwords;
  positive_words := some_positive_words;
  negative_words := some_negative_words
|}.

(** A site of four pages: a full article, a page without the title
    element, a page whose content element is blank, and an article of
    stopwords only.  Any other URL fails to load. *)
Definition site : list (string * (option string * option string)) :=
  [ ("http://site/full",
      (Some " A good day ", Some "The food was good. The service was bad."));
    ("http://site/untitled",
      (None, Some "Good dogs bark."));
    ("http://site/blank",
      (Some "Blank", Some "   "));
    ("http://site/stopwords",
      (Some "Stopwords", Some "It is what it is.")) ].

Fixpoint lookup (url : string)
  (pages : list (string * (option string * option string)))
  : option (option string * option string) :=
  match pages with
  | [] => None
  | (u, p) :: pages' => if String.eqb url u then Some p else lookup url pages'
  end.

Definition web : Web := {|
  page := option string * option string;
  get_soup := fun url => lookup url site;
  find_entry_title := fst;
  find_post_content := snd
|}.

Definition batch : list InputRow :=
  [ {| URL_ID := "1"; URL := "http://site/full" |};
    {| URL_ID := "2"; URL := "http://site/gone" |};
    {| URL_ID := "3"; URL := "http://site/blank" |};
    {| URL_ID := "4"; URL := "http://site/untitled" |} ].

End Model.

(** ** What the specification says, in its own words *)

Module Spec.

Definition is_vowel (c : ascii) : bool := char_in c vowels.

Definition vowel_at (word : list ascii) (i : nat) : bool :=
  match nth_error word i with
  | Some c => is_vowel c
  | None => false
  end.

(** A maximal run of vowels starts at index [i] when the character at
    [i] is a vowel and the one before it is not; [before] says whether
    a vowel precedes index 0 (it does not, at the start of a word). *)
Definition run_starts_at (before : bool) (word : list ascii) (i : nat) : bool :=
  vowel_at word i &&
  negb (match i with
        | O => before
        | S j => vowel_at word j
        end).

Definition runs_after (before : bool) (word : list ascii) : nat :=
  List.length (filter (run_starts_at before word) (seq 0 (List.length word))).

(** The number of maximal runs of consecutive vowels of a word. *)
Definition maximal_vowel_runs (word : string) : Z :=
  Z.of_nat (runs_after false (list_ascii_of_string word)).

(** The count of tokens present in a lexicon. *)
Definition count_in (lexicon tokens : list string) : Z :=
  Z.of_nat (List.length (filter (fun token => Py.mem token lexicon) tokens)).

(** Total word count over sentence count, for the sentences of [text]. *)
Definition avg_words_per_sentence (nltk : NLTK) (text : string) : option float :=
  let sentences := sent_tokenize nltk text in
  Py.true_div (Z.of_nat (List.length (flat_map (word_tokenize nltk) sentences)))
              (Z.of_nat (List.length sentences)).

(** The words that survive cleaning, before they are joined. *)
Definition cleaned_words (nltk : NLTK) (text : string) : list string :=
  filter (fun word => negb (Py.mem word (stop_words nltk)))
    (map Py.lower (filter Py.isalnum (word_tokenize nltk text))).

(** Cleaned-text words of more than 6 characters and more than 3 syllables. *)
Definition complex_words (nltk : NLTK) (text : string) : list string :=
  filter (fun word => (6 <? String.length word)%nat && (3 <? count_syllables word))
    (Py.split (clean_text nltk text)).

(** The pronouns that stopword removal leaves in a text. *)
Definition surviving_pronouns (nltk : NLTK) : list string :=
  filter (fun p => negb (Py.mem p (stop_words nltk))) pronouns.

(** The fetch of a row, and the two ways to call it successful. *)
Definition fetched (web : Web) (row : InputRow) : option string * option string :=
  extract_article_info web (URL row).

Definition has_body (web : Web) (row : InputRow) : bool :=
  Py.truthy (snd (fetched web row)).

Definition has_title_and_body (web : Web) (row : InputRow) : bool :=
  Py.truthy (fst (fetched web row)) && Py.truthy (snd (fetched web row)).

Definition in_key (row : InputRow) : string * string := (URL_ID row, URL row).
Definition out_key (row : OutputRow) : string * string := (out_URL_ID row, out_URL row).

End Spec.

(** ** Text outside ASCII *)

(** [Py.lower] and [Py.isalnum] are Python's on ASCII text.  Outside
    ASCII one character behaves unlike every other: U+0130, LATIN CAPITAL
    LETTER I WITH DOT ABOVE, is alphanumeric, and its lowercase is [i]
    followed by U+0307, COMBINING DOT ABOVE, which is neither alphanumeric
    nor a word character.  Module [Utf8] holds [str.lower], [str.isalnum]
    and [clean_text] on UTF-8 encoded text, exact for text made of ASCII
    characters, U+0130 and U+0307 (any other character outside ASCII is
    taken as not alphanumeric and left alone by [lower]). *)

Module Utf8.

(** [s.isascii()] *)
Definition is_ascii_char (c : ascii) : bool := (Py.code c <? 128)%N.

Definition isascii (s : string) : bool := Py.all_chars is_ascii_char s.

(** U+0130 is the bytes C4 B0. *)
Definition is_capital_i_dot (c d : ascii) : bool :=
  ((Py.code c =? 196) && (Py.code d =? 176))%N.

Definition capital_i_dot : string :=
  String (ascii_of_N 196) (String (ascii_of_N 176) EmptyString).

(** [i] followed by U+0307, the bytes CC 87. *)
Definition small_i_dot : string :=
  String "i" (String (ascii_of_N 204) (String (ascii_of_N 135) EmptyString)).

(** [s.lower()] *)
Fixpoint lower (s : string) : string :=
  match s with
  | EmptyString => EmptyString
  | String c s' =>
      match s' with
      | String d s'' =>
          if is_capital_i_dot c d then small_i_dot ++ lower s''
          else String (Py.lower_char c) (lower s')
      | EmptyString => String (Py.lower_char c) EmptyString
      end
  end.

Fixpoint all_alnum (s : string) : bool :=
  match s with
  | EmptyString => true
  | String c s' =>
      if Py.isalnum_char c then all_alnum s'
      else
        match s' with
        | String d s'' => is_capital_i_dot c d && all_alnum s''
        | EmptyString => false
        end
  end.

(** [s.isalnum()] *)
Definition isalnum (s : string) : bool :=
  match s with
  | EmptyString => false
  | _ => all_alnum s
  end.

(** [clean_text], lines 45-58, with these two built-ins. *)
Definition clean_text (nltk : NLTK) (text : string) : string :=
  let tokens := word_tokenize nltk text in
  let words := map lower (filter isalnum tokens) in
  let words := filter (fun word => negb (Py.mem word (stop_words nltk))) words in
  Py.join " " words.

(** Modelled from the spec: the word tokenizer of section 4.1 step 1 on
    text without punctuation (NLTK's tokenizers are not in the
    repository): the tokens of a sentence are its words between
    whitespace. *)
Definition nltk : NLTK := {|
  sent_tokenize := Model.split_sentences;
  treebank_tokenize := Py.split;
  stop_words := Model.english_stopwords;
  positive_words := Model.some_positive_words;
  negative_words := Model.some_negative_words
|}.

End Utf8.

(** ** Vocabulary for the properties of the whole pipeline *)

Module Shape.

(** The characters a cleaned text is made of. *)
Definition is_clean_char (c : ascii) : bool :=
  Py.islower_char c || Py.isdigit_char c || Ascii.eqb c " "%char.

(** A string of whitespace only (the empty string included). *)
Definition blank (s : string) : bool := Py.all_chars Py.isspace_char s.

Fixpoint count_vowels (word : string) : Z :=
  match word with
  | EmptyString => 0
  | String c word' => (if Spec.is_vowel c then 1 else 0) + count_vowels word'
  end.

(** An output row of [main] that belongs to an input row: same keys, and
    the metrics of the body fetched for it. *)
Definition row_matches (web : Web) (nltk : NLTK) (row : InputRow)
  (out : OutputRow) : Prop :=
  Spec.out_key out = Spec.in_key row
  /\ exists text : string,
       snd (Spec.fetched web row) = Some text
       /\ analyze_text nltk text = Some (analysis_results out).

(** A row of Output.xlsx and a row of extracted_articles.xlsx that carry
    the same article and the same scores. *)
Definition same_scores (out : OutputRow) (art : Article) : Prop :=
  out_URL out = art_URL art
  /\ POSITIVE_SCORE (analysis_results out) = Positive_Score art
  /\ NEGATIVE_SCORE (analysis_results out) = Negative_Score art
  /\ POLARITY_SCORE (analysis_results out) = Polarity_Score art
  /\ SUBJECTIVITY_SCORE (analysis_results out) = Subjectivity_Score art
  /\ AVG_SENTENCE_LENGTH (analysis_results out) = Avg_Words_Per_Sentence art
  /\ COMPLEX_WORD_COUNT (analysis_results out) = Complex_Word_Count art
  /\ FOG_INDEX (analysis_results out) = Fog_Index art
  /\ SYLLABLE_PER_WORD (analysis_results out) = Syllable_Per_Word art
  /\ PERSONAL_PRONOUNS (analysis_results out) = Personal_Pronouns art
  /\ AVG_WORD_LENGTH (analysis_results out) = Avg_Word_Length art.

(** The outcome of the two drivers on one batch, side by side. *)
Definition drivers_agree (outs : option (list OutputRow))
  (arts : option (list Article)) : Prop :=
  match outs, arts with
  | Some outs, Some arts => Forall2 same_scores outs arts
  | None, None => True
  | _, _ => False
  end.

End Shape.

(** * Properties *)

(** ** Strings *)

Lemma append_empty_r (s : string) : s ++ EmptyString = s.
Proof. induction s as [|c s IH]; cbn; [reflexivity|now rewrite IH]. Qed.

Lemma append_assoc (s1 s2 s3 : string) : (s1 ++ s2) ++ s3 = s1 ++ (s2 ++ s3).
Proof. induction s1 as [|c s1 IH]; cbn; [reflexivity|now rewrite IH]. Qed.

(** ** Counting *)

Lemma sum_ones_from {A : Type} (p : A -> bool) (l : list A) (acc : Z) :
  fold_left (fun acc x => if p x then acc + 1 else acc) l acc
  = acc + Z.of_nat (List.length (filter p l)).
Proof.
  revert acc; induction l as [|x l IH]; intros acc; simpl.
  - lia.
  - rewrite IH. destruct (p x); simpl List.length; lia.
Qed.

Lemma sum_ones_filter {A : Type} (p : A -> bool) (l : list A) :
  Py.sum_ones p l = Z.of_nat (List.length (filter p l)).
Proof. unfold Py.sum_ones. now rewrite sum_ones_from. Qed.

Lemma sum_of_from {A : Type} (f : A -> Z) (l : list A) (acc : Z) :
  fold_left (fun acc x => acc + f x) l acc = acc + Py.sum_of f l.
Proof.
  unfold Py.sum_of. revert acc.
  induction l as [|x l IH]; intros acc; simpl.
  - lia.
  - rewrite (IH (acc + f x)), (IH (f x)). lia.
Qed.

Lemma sum_of_cons {A : Type} (f : A -> Z) (x : A) (l : list A) :
  Py.sum_of f (x :: l) = f x + Py.sum_of f l.
Proof. unfold Py.sum_of at 1. simpl. now rewrite sum_of_from. Qed.

Lemma sum_of_lengths {A B : Type} (f : A -> list B) (l : list A) :
  Py.sum_of (fun x => Py.len_list (f x)) l
  = Z.of_nat (List.length (flat_map f l)).
Proof.
  induction l as [|x l IH].
  - reflexivity.
  - rewrite sum_of_cons, IH. simpl. rewrite length_app.
    unfold Py.len_list. lia.
Qed.

(** ** Syllables *)

Lemma count_syllables_step_flag (st : Z * bool) (c : ascii) :
  count_syllables_step st c
  = (fst st + (if Spec.is_vowel c && negb (snd st) then 1 else 0), Spec.is_vowel c).
Proof.
  destruct st as [n prev]. unfold count_syllables_step, Spec.is_vowel.
  cbn [fst snd].
  destruct (char_in c vowels), prev; cbn [andb negb]; f_equal; lia.
Qed.

Lemma runs_after_cons (before : bool) (c : ascii) (l : list ascii) :
  Spec.runs_after before (c :: l)
  = ((if Spec.is_vowel c && negb before then 1 else 0)
     + Spec.runs_after (Spec.is_vowel c) l)%nat.
Proof.
  unfold Spec.runs_after. cbn [List.length]. rewrite <- cons_seq, <- seq_shift.
  cbn [filter].
  assert (E : List.length (filter (Spec.run_starts_at before (c :: l)) (map S (seq 0 (List.length l))))
              = List.length (filter (Spec.run_starts_at (Spec.is_vowel c) l) (seq 0 (List.length l)))).
  { induction (seq 0 (List.length l)) as [|i rest IH]; simpl; [reflexivity|].
    assert (F : Spec.run_starts_at before (c :: l) (S i)
                = Spec.run_starts_at (Spec.is_vowel c) l i).
    { unfold Spec.run_starts_at. destruct i; reflexivity. }
    rewrite F. destruct (Spec.run_starts_at (Spec.is_vowel c) l i); simpl; now rewrite IH. }
  unfold Spec.run_starts_at at 1. unfold Spec.vowel_at at 1. cbn [nth_error].
  destruct (Spec.is_vowel c && negb before); cbn [List.length]; rewrite E; reflexivity.
Qed.

Lemma count_syllables_loop_runs (word : string) (n : Z) (prev : bool) :
  fst (count_syllables_loop (n, prev) word)
  = n + Z.of_nat (Spec.runs_after prev (list_ascii_of_string word)).
Proof.
  revert n prev; induction word as [|c word IH]; intros n prev.
  - cbn. lia.
  - cbn [count_syllables_loop list_ascii_of_string].
    rewrite count_syllables_step_flag. cbn [fst snd].
    rewrite IH, runs_after_cons.
    destruct (Spec.is_vowel c && negb prev); lia.
Qed.

(** C5: for every word, count_syllables returns the number of maximal runs
    of consecutive characters from the vowel set a, e, i, o, u; for the
    empty word and for "rhythm" that number is 0. *)
Theorem count_syllables_counts_vowel_runs :
  (forall word : string, count_syllables word = Spec.maximal_vowel_runs word)
  /\ count_syllables "" = 0
  /\ count_syllables "rhythm" = 0.
Proof.
  split; [|split; reflexivity].
  intros word. unfold count_syllables, Spec.maximal_vowel_runs.
  now rewrite count_syllables_loop_runs.
Qed.

(** C6, as the specification states it: count_syllables("sky") = 1.  The
    code answers 0, so the stated value is refuted. *)
Lemma count_syllables_sky_is_not_1 : count_syllables "sky" <> 1.
Proof. vm_compute. discriminate. Qed.

(** C6, amended: count_syllables applied to the word "sky" returns 0, since
    none of s, k, y is in the vowel set. *)
Theorem count_syllables_sky : count_syllables "sky" = 0.
Proof. reflexivity. Qed.

(** ** Sentiment scores *)

(** C1: for every token sequence, sentiment_analysis returns the number of
    tokens in the positive lexicon, the number in the negative lexicon,
    polarity (positive - negative) / (positive + negative + 1e-6) and
    subjectivity (positive + negative) / (len(tokens) + 1e-6); on
    ["good","good","bad"] with lexicons {good} and {bad} that is 2, 1,
    1/(3+1e-6) and 3/(3+1e-6). *)
Theorem sentiment_analysis_scores :
  (forall (nltk : NLTK) (tokens : list string),
     let positive := Spec.count_in (positive_words nltk) tokens in
     let negative := Spec.count_in (negative_words nltk) tokens in
     sentiment_analysis nltk tokens
     = (positive, negative,
        PrimFloat.div (Py.float_of_int (positive - negative))
          (PrimFloat.add (Py.float_of_int (positive + negative)) epsilon),
        PrimFloat.div (Py.float_of_int (positive + negative))
          (PrimFloat.add (Py.float_of_int (Py.len_list tokens)) epsilon)))
  /\ sentiment_analysis Model.good_bad ["good"; "good"; "bad"]
     = (2, 1,
        PrimFloat.div (Py.float_of_int 1) (PrimFloat.add (Py.float_of_int 3) epsilon),
        PrimFloat.div (Py.float_of_int 3) (PrimFloat.add (Py.float_of_int 3) epsilon)).
Proof.
  split.
  - intros nltk tokens. unfold sentiment_analysis, Spec.count_in.
    now rewrite !sum_ones_filter.
  - vm_compute. reflexivity.
Qed.

(** ** The per-article pipeline *)

Lemma analyze_text_inv (nltk : NLTK) (text : string) (r : Metrics) :
  analyze_text nltk text = Some r ->
  let cleaned_text := clean_text nltk text in
  exists avg complex_word_count fog,
    readability_analysis nltk cleaned_text = Some (avg, complex_word_count, fog)
    /\ AVG_SENTENCE_LENGTH r = avg
    /\ AVG_NUMBER_OF_WORDS_PER_SENTENCE r = avg
    /\ COMPLEX_WORD_COUNT r = complex_word_count
    /\ FOG_INDEX r = fog
    /\ PERSONAL_PRONOUNS r = count_personal_pronouns cleaned_text
    /\ WORD_COUNT r = Py.len_list (word_tokenize nltk cleaned_text).
Proof.
  intros H cleaned_text. unfold analyze_text in H. fold cleaned_text in H.
  destruct (sentiment_analysis nltk (word_tokenize nltk cleaned_text))
    as [[[positive negative] polarity] subjectivity].
  destruct (readability_analysis nltk cleaned_text) as [[[avg cwc] fog]|];
    [|discriminate].
  cbn [Py.bind] in H.
  destruct (syllable_count_per_word nltk cleaned_text); [|discriminate].
  cbn [Py.bind] in H.
  destruct (average_word_length nltk cleaned_text); [|discriminate].
  cbn [Py.bind] in H.
  destruct (Py.true_div cwc (Py.len_list (word_tokenize nltk cleaned_text)));
    [|discriminate].
  cbn [Py.bind] in H. injection H as <-.
  exists avg, cwc, fog. cbn. repeat split; reflexivity.
Qed.


(** C2, as the specification states it: the pipeline counts pronouns on
    the raw article text.  On "We like dogs." the raw text holds one
    pronoun and the record reports none. *)
Lemma personal_pronouns_not_from_raw_text :
  let text := "We like dogs." in
  exists r : Metrics,
    analyze_text Model.nltk text = Some r
    /\ count_personal_pronouns text = 1
    /\ PERSONAL_PRONOUNS r = 0
    /\ PERSONAL_PRONOUNS r <> count_personal_pronouns text.
Proof.
  intros text.
  destruct (analyze_text Model.nltk text) as [r|] eqn:E;
    [|vm_compute in E; discriminate].
  exists r. vm_compute in E. injection E as <-.
  repeat split; try reflexivity. vm_compute. discriminate.
Qed.

(** C2, amended: in the per-article pipeline the PERSONAL PRONOUNS metric
    is count_personal_pronouns applied to the cleaned text, so a pronoun
    that stopword removal drops is not counted. *)
Theorem personal_pronouns_from_cleaned_text
  (nltk : NLTK) (text : string) (r : Metrics) :
  analyze_text nltk text = Some r ->
  PERSONAL_PRONOUNS r = count_personal_pronouns (clean_text nltk text).
Proof.
  intros H. destruct (analyze_text_inv _ _ _ H) as (avg & cwc & fog & _ & _ & _ & _ & _ & Hp & _).
  exact Hp.
Qed.

Lemma personal_pronouns_from_cleaned_text_witness :
  exists r : Metrics,
    analyze_text Model.nltk "We like dogs." = Some r
    /\ PERSONAL_PRONOUNS r
       = count_personal_pronouns (clean_text Model.nltk "We like dogs.").
Proof.
  destruct (analyze_text Model.nltk "We like dogs.") as [r|] eqn:E.
  - exists r. split; [reflexivity|].
    apply (personal_pronouns_from_cleaned_text Model.nltk "We like dogs." r E).
  - vm_compute in E. discriminate.
Defined.

(** C3, as the specification states it: AVG SENTENCE LENGTH comes from the
    sentences of the raw article.  On a two-sentence article of ten raw
    tokens the raw value is 5.0 and the record reports 4.0. *)
Lemma avg_sentence_length_not_from_raw_text :
  let text := "The food was good. The service was bad." in
  exists r : Metrics,
    analyze_text Model.nltk text = Some r
    /\ Spec.avg_words_per_sentence Model.nltk text = Some 5%float
    /\ AVG_SENTENCE_LENGTH r = 4%float
    /\ Spec.avg_words_per_sentence Model.nltk text <> Some (AVG_SENTENCE_LENGTH r).
Proof.
  intros text.
  destruct (analyze_text Model.nltk text) as [r|] eqn:E;
    [|vm_compute in E; discriminate].
  exists r. vm_compute in E. injection E as <-.
  repeat split; try (vm_compute; reflexivity).
  intros H.
  apply (f_equal (fun o => match o with
                           | Some x => PrimFloat.eqb x 4
                           | None => false
                           end)) in H.
  vm_compute in H. discriminate.
Qed.

(** C3, amended: for every article, AVG SENTENCE LENGTH is the total word
    count divided by the sentence count, where sentence splitting and
    per-sentence word tokenization are applied to the cleaned text. *)
Theorem avg_sentence_length_from_cleaned_text
  (nltk : NLTK) (text : string) (r : Metrics) :
  analyze_text nltk text = Some r ->
  Spec.avg_words_per_sentence nltk (clean_text nltk text)
  = Some (AVG_SENTENCE_LENGTH r).
Proof.
  intros H.
  destruct (analyze_text_inv _ _ _ H) as (avg & cwc & fog & Hr & Ha & _).
  rewrite Ha. clear H Ha. unfold readability_analysis in Hr.
  rewrite sum_of_lengths in Hr. unfold Spec.avg_words_per_sentence.
  unfold Py.len_list in Hr.
  destruct (Py.true_div _ _) as [a|]; [|discriminate].
  cbn [Py.bind] in Hr.
  destruct (Py.true_div _ _); [|discriminate].
  cbn [Py.bind] in Hr. now injection Hr as -> _ _.
Qed.

Lemma avg_sentence_length_from_cleaned_text_witness :
  let text := "The food was good. The service was bad." in
  exists r : Metrics,
    analyze_text Model.nltk text = Some r
    /\ Spec.avg_words_per_sentence Model.nltk (clean_text Model.nltk text)
       = Some (AVG_SENTENCE_LENGTH r).
Proof.
  intros text.
  destruct (analyze_text Model.nltk text) as [r|] eqn:E.
  - exists r. split; [reflexivity|].
    apply (avg_sentence_length_from_cleaned_text Model.nltk text r E).
  - vm_compute in E. discriminate.
Defined.

(** ** Readability *)

Lemma is_complex_length (word : string) :
  is_complex word
  = ((6 <? String.length word)%nat && (3 <? count_syllables word)).
Proof.
  unfold is_complex, Py.len. f_equal.
  destruct (Nat.ltb_spec 6 (String.length word));
    [apply Z.ltb_lt | apply Z.ltb_ge]; lia.
Qed.

Lemma complex_word_count_spec (nltk : NLTK) (text : string) :
  Py.sum_ones is_complex (Py.split (clean_text nltk text))
  = Z.of_nat (List.length (Spec.complex_words nltk text)).
Proof.
  rewrite sum_ones_filter. unfold Spec.complex_words.
  do 2 f_equal. apply filter_ext. exact is_complex_length.
Qed.

Lemma no_sentence_no_word (nltk : NLTK) (text : string) :
  sent_tokenize nltk text = [] -> Py.split (clean_text nltk text) = [].
Proof.
  intros H. unfold clean_text, word_tokenize. now rewrite H.
Qed.

(** C4: when the cleaned word count is positive, readability_analysis
    returns fog_index = 0.4 * (avg_words_per_sentence + complex_word_count
    / cleaned_word_count), complex_word_count being the number of cleaned
    words longer than 6 characters with more than 3 syllables; when the
    cleaned word count is 0 it fails. *)
Theorem readability_analysis_fog_index (nltk : NLTK) (text : string) :
  let cleaned_word_count := Py.len_list (Py.split (clean_text nltk text)) in
  let complex_word_count := Z.of_nat (List.length (Spec.complex_words nltk text)) in
  (0 < cleaned_word_count ->
   exists avg_words_per_sentence : float,
     Spec.avg_words_per_sentence nltk text = Some avg_words_per_sentence
     /\ readability_analysis nltk text
        = Some (avg_words_per_sentence, complex_word_count,
                PrimFloat.mul zero_point_four
                  (PrimFloat.add avg_words_per_sentence
                     (PrimFloat.div (Py.float_of_int complex_word_count)
                        (Py.float_of_int cleaned_word_count)))))
  /\ (cleaned_word_count = 0 -> readability_analysis nltk text = None).
Proof.
  intros count complex. split.
  - intros Hpos.
    assert (Hs : Py.len_list (sent_tokenize nltk text) <> 0).
    { intros E. unfold Py.len_list in E.
      destruct (sent_tokenize nltk text) eqn:S; [|discriminate].
      unfold count in Hpos. rewrite (no_sentence_no_word _ _ S) in Hpos.
      cbn in Hpos. lia. }
    unfold readability_analysis, Spec.avg_words_per_sentence.
    rewrite sum_of_lengths, complex_word_count_spec.
    fold count complex. unfold Py.len_list in *. unfold Py.true_div.
    apply Z.eqb_neq in Hs. rewrite Hs.
    assert (Hc : (count =? 0) = false) by (apply Z.eqb_neq; lia).
    rewrite Hc. eexists. split; reflexivity.
  - intros Hzero. unfold readability_analysis.
    fold (Py.len_list (Py.split (clean_text nltk text))). fold count.
    rewrite Hzero.
    destruct (Py.true_div _ _); reflexivity.
Qed.

Lemma readability_analysis_fog_index_witness :
  (exists avg : float,
     Spec.avg_words_per_sentence Model.nltk "Good food. Bad service." = Some avg
     /\ readability_analysis Model.nltk "Good food. Bad service."
        = Some (avg, 0,
                PrimFloat.mul zero_point_four
                  (PrimFloat.add avg
                     (PrimFloat.div (Py.float_of_int 0) (Py.float_of_int 4)))))
  /\ readability_analysis Model.nltk "It is what it is." = None.
Proof.
  split.
  - apply (proj1 (readability_analysis_fog_index Model.nltk "Good food. Bad service.")).
    reflexivity.
  - apply (proj2 (readability_analysis_fog_index Model.nltk "It is what it is.")).
    reflexivity.
Defined.

(** ** The batch drivers *)

Section DriverFacts.

Variable web : Web.
Variable nltk : NLTK.

Lemma main_loop_skip (row : InputRow) (rows : list InputRow)
  (results : list OutputRow) :
  Spec.has_title_and_body web row = false ->
  main_loop web nltk (row :: rows) results = main_loop web nltk rows results.
Proof.
  unfold Spec.has_title_and_body, Spec.fetched. intros H.
  cbn [main_loop].
  destruct (extract_article_info web (URL row)) as [title text].
  cbn [fst snd] in H. now rewrite H.
Qed.

Lemma scrape_loop_skip (row : InputRow) (rows : list InputRow)
  (articles : list Article) :
  Spec.has_title_and_body web row = false ->
  scrape_loop web nltk (row :: rows) articles = scrape_loop web nltk rows articles.
Proof.
  unfold Spec.has_title_and_body, Spec.fetched. intros H.
  cbn [scrape_loop].
  destruct (extract_article_info web (URL row)) as [title text].
  cbn [fst snd] in H. now rewrite H.
Qed.

Lemma main_loop_emits (rows : list InputRow) :
  forall acc results : list OutputRow,
    main_loop web nltk rows acc = Some results ->
    exists new : list OutputRow,
      results = (acc ++ new)%list
      /\ map Spec.out_key new
         = map Spec.in_key (filter (Spec.has_title_and_body web) rows).
Proof.
  induction rows as [|row rows IH]; intros acc results H.
  - cbn in H. injection H as <-. exists []. now rewrite app_nil_r.
  - cbn [filter].
    destruct (Spec.has_title_and_body web row) eqn:E.
    + cbn [main_loop] in H. unfold Spec.has_title_and_body, Spec.fetched in E.
      destruct (extract_article_info web (URL row)) as [title text].
      cbn [fst snd] in E. rewrite E in H.
      destruct text as [text|].
      * destruct (analyze_text nltk text) as [analysis|]; [|discriminate].
        cbn [Py.bind] in H. destruct (IH _ _ H) as (new & -> & Hk).
        eexists (_ :: new). rewrite <- app_assoc. split; [reflexivity|].
        cbn [map]. now rewrite Hk.
      * apply andb_prop in E. destruct E as [_ E]. discriminate.
    + rewrite (main_loop_skip _ _ _ E) in H. exact (IH _ _ H).
Qed.

Lemma scrape_loop_emits (rows : list InputRow) :
  forall acc articles : list Article,
    scrape_loop web nltk rows acc = Some articles ->
    exists new : list Article,
      articles = (acc ++ new)%list
      /\ map art_URL new
         = map URL (filter (Spec.has_title_and_body web) rows).
Proof.
  induction rows as [|row rows IH]; intros acc articles H.
  - cbn in H. injection H as <-. exists []. now rewrite app_nil_r.
  - cbn [filter].
    destruct (Spec.has_title_and_body web row) eqn:E.
    + cbn [scrape_loop] in H. unfold Spec.has_title_and_body, Spec.fetched in E.
      destruct (extract_article_info web (URL row)) as [title text].
      cbn [fst snd] in E. rewrite E in H.
      destruct text as [text|].
      * destruct (sentiment_analysis nltk _) as [[[pos neg] pol] sub].
        destruct (readability_analysis nltk _) as [[[avg cwc] fog]|]; [|discriminate].
        cbn [Py.bind] in H.
        destruct (syllable_count_per_word nltk _); [|discriminate].
        cbn [Py.bind] in H.
        destruct (average_word_length nltk _); [|discriminate].
        cbn [Py.bind] in H. destruct (IH _ _ H) as (new & -> & Hk).
        eexists (_ :: new). rewrite <- app_assoc. split; [reflexivity|].
        cbn [map]. now rewrite Hk.
      * apply andb_prop in E. destruct E as [_ E]. discriminate.
    + rewrite (scrape_loop_skip _ _ _ E) in H. exact (IH _ _ H).
Qed.

Lemma no_body_no_record (row : InputRow) :
  Spec.has_body web row = false -> Spec.has_title_and_body web row = false.
Proof.
  unfold Spec.has_body, Spec.has_title_and_body. intros ->.
  apply andb_false_r.
Qed.

Lemma no_title_no_record (row : InputRow) :
  Py.truthy (fst (Spec.fetched web row)) = false ->
  Spec.has_title_and_body web row = false.
Proof. unfold Spec.has_title_and_body. now intros ->. Qed.

End DriverFacts.

(** C8, as the specification states it: the number of output rows equals
    the number of articles fetched with a body.  A page that has its body
    but no title element is fetched with a body and gives no row. *)
Lemma output_rows_not_counted_by_body :
  let df := [ {| URL_ID := "4"; URL := "http://site/untitled" |} ] in
  exists results : list OutputRow,
    main Model.web Model.nltk df = Some results
    /\ List.length results = 0%nat
    /\ List.length (filter (Spec.has_body Model.web) df) = 1%nat
    /\ List.length results <> List.length (filter (Spec.has_body Model.web) df).
Proof.
  intros df. exists []. repeat split. vm_compute. discriminate.
Qed.

(** C8, amended: in both drivers an article whose fetched body is null or
    empty leaves the output collection as it was (it is skipped, not
    scored with zeros), and when the run completes the output rows are
    those of the articles whose fetched title and body are both non-null
    and non-empty, in input order, so their number is the number of such
    articles. *)
Theorem missing_body_is_skipped (web : Web) (nltk : NLTK) :
  (forall (row : InputRow) (rows : list InputRow),
     Spec.has_body web row = false ->
     (forall results, main_loop web nltk (row :: rows) results
                      = main_loop web nltk rows results)
     /\ (forall articles, scrape_loop web nltk (row :: rows) articles
                          = scrape_loop web nltk rows articles))
  /\ (forall (df : list InputRow) (results : list OutputRow),
        main web nltk df = Some results ->
        map Spec.out_key results
        = map Spec.in_key (filter (Spec.has_title_and_body web) df)
        /\ List.length results
           = List.length (filter (Spec.has_title_and_body web) df))
  /\ (forall (df : list InputRow) (articles : list Article),
        scrape_articles web nltk df = Some articles ->
        map art_URL articles
        = map URL (filter (Spec.has_title_and_body web) df)
        /\ List.length articles
           = List.length (filter (Spec.has_title_and_body web) df)).
Proof.
  split; [|split].
  - intros row rows H. apply no_body_no_record in H. split; intros acc.
    + now apply main_loop_skip.
    + now apply scrape_loop_skip.
  - intros df results H. destruct (main_loop_emits _ _ _ _ _ H) as (new & -> & Hk).
    cbn [app]. split; [exact Hk|].
    rewrite <- (length_map Spec.out_key), Hk. apply length_map.
  - intros df articles H. destruct (scrape_loop_emits _ _ _ _ _ H) as (new & -> & Hk).
    cbn [app]. split; [exact Hk|].
    rewrite <- (length_map art_URL), Hk. apply length_map.
Qed.

Lemma missing_body_is_skipped_witness :
  main_loop Model.web Model.nltk
    ({| URL_ID := "3"; URL := "http://site/blank" |} :: Model.batch) []
  = main_loop Model.web Model.nltk Model.batch []
  /\ (exists results : list OutputRow,
        main Model.web Model.nltk Model.batch = Some results
        /\ List.length results
           = List.length (filter (Spec.has_title_and_body Model.web) Model.batch))
  /\ (exists articles : list Article,
        scrape_articles Model.web Model.nltk Model.batch = Some articles
        /\ List.length articles
           = List.length (filter (Spec.has_title_and_body Model.web) Model.batch)).
Proof.
  pose proof (missing_body_is_skipped Model.web Model.nltk) as (Hskip & Hmain & Hscrape).
  split; [|split].
  - apply (Hskip {| URL_ID := "3"; URL := "http://site/blank" |} Model.batch).
    reflexivity.
  - destruct (main Model.web Model.nltk Model.batch) as [results|] eqn:E.
    + exists results. split; [reflexivity|]. now apply Hmain.
    + vm_compute in E. discriminate.
  - destruct (scrape_articles Model.web Model.nltk Model.batch) as [articles|] eqn:E.
    + exists articles. split; [reflexivity|]. now apply Hscrape.
    + vm_compute in E. discriminate.
Defined.

(** C10: a record is emitted only when the fetched title and the fetched
    body are both non-null and non-empty; a row whose fetch has a body but
    a null or empty title is skipped, in both drivers. *)
Theorem record_needs_title_and_body (web : Web) (nltk : NLTK) :
  (forall (row : InputRow) (rows : list InputRow),
     Spec.has_body web row = true ->
     Py.truthy (fst (Spec.fetched web row)) = false ->
     (forall results, main_loop web nltk (row :: rows) results
                      = main_loop web nltk rows results)
     /\ (forall articles, scrape_loop web nltk (row :: rows) articles
                          = scrape_loop web nltk rows articles))
  /\ (forall (df : list InputRow) (results : list OutputRow),
        main web nltk df = Some results ->
        forall record : OutputRow, In record results ->
        exists row : InputRow,
          In row df
          /\ Spec.out_key record = Spec.in_key row
          /\ Py.truthy (fst (Spec.fetched web row)) = true
          /\ Py.truthy (snd (Spec.fetched web row)) = true)
  /\ (forall (df : list InputRow) (articles : list Article),
        scrape_articles web nltk df = Some articles ->
        forall article : Article, In article articles ->
        exists row : InputRow,
          In row df
          /\ art_URL article = URL row
          /\ Py.truthy (fst (Spec.fetched web row)) = true
          /\ Py.truthy (snd (Spec.fetched web row)) = true).
Proof.
  split; [|split].
  - intros row rows _ H. apply no_title_no_record in H. split; intros acc.
    + now apply main_loop_skip.
    + now apply scrape_loop_skip.
  - intros df results H record Hin.
    destruct (main_loop_emits _ _ _ _ _ H) as (new & -> & Hk). cbn [app] in Hin.
    apply (in_map Spec.out_key) in Hin. rewrite Hk in Hin.
    apply in_map_iff in Hin. destruct Hin as (row & Hrow & Hf).
    apply filter_In in Hf. destruct Hf as [Hdf Hb].
    apply andb_prop in Hb. exists row. now repeat split.
  - intros df articles H article Hin.
    destruct (scrape_loop_emits _ _ _ _ _ H) as (new & -> & Hk). cbn [app] in Hin.
    apply (in_map art_URL) in Hin. rewrite Hk in Hin.
    apply in_map_iff in Hin. destruct Hin as (row & Hrow & Hf).
    apply filter_In in Hf. destruct Hf as [Hdf Hb].
    apply andb_prop in Hb. exists row. now repeat split.
Qed.

Lemma record_needs_title_and_body_witness :
  main_loop Model.web Model.nltk
    ({| URL_ID := "4"; URL := "http://site/untitled" |} :: Model.batch) []
  = main_loop Model.web Model.nltk Model.batch []
  /\ (exists record : OutputRow,
        main Model.web Model.nltk Model.batch = Some [record]
        /\ exists row : InputRow,
             In row Model.batch
             /\ Spec.out_key record = Spec.in_key row
             /\ Py.truthy (fst (Spec.fetched Model.web row)) = true
             /\ Py.truthy (snd (Spec.fetched Model.web row)) = true).
Proof.
  pose proof (record_needs_title_and_body Model.web Model.nltk) as (Hskip & Hmain & _).
  split.
  - apply (Hskip {| URL_ID := "4"; URL := "http://site/untitled" |} Model.batch);
      reflexivity.
  - destruct (main Model.web Model.nltk Model.batch) as [results|] eqn:E;
      [|vm_compute in E; discriminate].
    destruct results as [|record [|? ?]];
      try (vm_compute in E; discriminate).
    exists record. split; [reflexivity|].
    apply (Hmain Model.batch [record] E record). now left.
Defined.

(** ** Whole-word matching on cleaned text *)

Section WordScan.

Variable alts : list string.
Hypothesis alts_literal : forallb Re.is_literal_word alts = true.

Variable tail : string.
Hypothesis tail_break : Re.is_word (Re.head tail) = false.

Lemma literal_word_chars (w : string) :
  Re.is_literal_word w = true ->
  w <> EmptyString /\ Py.all_chars Re.is_word_char w = true.
Proof. destruct w; [discriminate|]. intros H. split; [discriminate|exact H]. Qed.

(** An alternative read at the start of [w ++ tail] ends at a word
    boundary exactly when it is [w] itself. *)
Lemma alternative_matches_whole_word (a : string) :
  forall (prev : option ascii) (w : string),
    Py.all_chars Re.is_word_char a = true ->
    Py.all_chars Re.is_word_char w = true ->
    Re.is_word prev = true \/ a <> EmptyString ->
    match Re.strip_prefix a prev (w ++ tail) with
    | Some (last, rest) => Re.boundary last (Re.head rest)
    | None => false
    end = String.eqb a w.
Proof.
  induction a as [|x a IH]; intros prev w Ha Hw Hor.
  - destruct Hor as [Hp|Hne]; [|now contradiction Hne].
    cbn [Re.strip_prefix]. unfold Re.boundary. rewrite Hp.
    destruct w as [|c w]; cbn [append Re.head].
    + now rewrite tail_break.
    + cbn in Hw. apply andb_prop in Hw. destruct Hw as [Hc _].
      cbn [Re.is_word]. now rewrite Hc.
  - cbn in Ha. apply andb_prop in Ha. destruct Ha as [Hx Ha].
    destruct w as [|c w]; cbn [append Re.strip_prefix String.eqb].
    + destruct tail as [|t tail']; [reflexivity|].
      cbn in tail_break.
      destruct (Ascii.eqb_spec x t) as [->|_]; [congruence|reflexivity].
    + cbn in Hw. apply andb_prop in Hw. destruct Hw as [Hc Hw].
      destruct (Ascii.eqb x c); [|reflexivity].
      apply IH; auto.
Qed.

Lemma match_alt_whole_word (prev : option ascii) (w : string) :
  Py.all_chars Re.is_word_char w = true ->
  Re.match_alt alts prev (w ++ tail)
  = if Py.mem w alts then Some w else None.
Proof.
  intros Hw. revert alts_literal.
  induction alts as [|a alts' IH]; intros Hl; [reflexivity|].
  cbn in Hl. apply andb_prop in Hl. destruct Hl as [Ha Hl].
  apply literal_word_chars in Ha. destruct Ha as [Hne Ha].
  cbn [Re.match_alt Py.mem existsb].
  pose proof (alternative_matches_whole_word a prev w Ha Hw (or_intror Hne)) as E.
  rewrite (String.eqb_sym w a).
  destruct (Re.strip_prefix a prev (w ++ tail)) as [[last rest]|].
  - rewrite E. destruct (String.eqb_spec a w) as [->|_]; [reflexivity|].
    exact (IH Hl).
  - rewrite <- E. exact (IH Hl).
Qed.

End WordScan.

Section Scan.

Variable alts : list string.
Hypothesis alts_literal : forallb Re.is_literal_word alts = true.

Lemma mem_empty_literal : Py.mem EmptyString alts = false.
Proof.
  revert alts_literal. induction alts as [|a alts' IH]; [reflexivity|].
  cbn. intros H. apply andb_prop in H. destruct H as [Ha Hl].
  destruct a; [discriminate|]. exact (IH Hl).
Qed.

Lemma scan_skip (u : string) :
  forall (prev : option ascii) (tail : string),
    Re.scan alts prev (String.length u) (u ++ tail)
    = Re.scan alts (Re.last_or prev u) O tail.
Proof.
  induction u as [|c u IH]; intros prev tail; [reflexivity|].
  cbn [String.length append Re.scan Re.last_or]. apply IH.
Qed.

(** No match starts inside a word. *)
Lemma scan_inside (u : string) :
  forall (prev : option ascii) (tail : string),
    Re.is_word prev = true ->
    Py.all_chars Re.is_word_char u = true ->
    Re.scan alts prev O (u ++ tail) = Re.scan alts (Re.last_or prev u) O tail.
Proof.
  induction u as [|c u IH]; intros prev tail Hp Hu; [reflexivity|].
  cbn in Hu. apply andb_prop in Hu. destruct Hu as [Hc Hu].
  cbn [append Re.scan Re.last_or]. unfold Re.match_here, Re.boundary.
  cbn [Re.head Re.is_word]. rewrite Hp, Hc. cbn [xorb].
  now apply IH.
Qed.

(** No match starts at a separator. *)
Lemma scan_separator (c : ascii) (s : string) (prev : option ascii) :
  Re.is_word_char c = false ->
  Re.scan alts prev O (String c s) = Re.scan alts (Some c) O s.
Proof.
  intros Hc. cbn [Re.scan]. unfold Re.match_here.
  assert (E : Re.match_alt alts prev (String c s) = None).
  { change (String c s) with (EmptyString ++ String c s).
    rewrite (match_alt_whole_word alts alts_literal (String c s) Hc prev EmptyString eq_refl).
    now rewrite mem_empty_literal. }
  rewrite E. now destruct (Re.boundary prev (Re.head (String c s))).
Qed.

(** A whole word is matched exactly when it is one of the alternatives. *)
Lemma scan_word (w tail : string) (prev : option ascii) :
  Re.is_word prev = false ->
  Re.is_literal_word w = true ->
  Re.is_word (Re.head tail) = false ->
  Re.scan alts prev O (w ++ tail)
  = ((if Py.mem w alts then [w] else []) ++ Re.scan alts (Re.last_or prev w) O tail)%list.
Proof.
  intros Hp Hw Ht. apply literal_word_chars in Hw. destruct Hw as [Hne Hw].
  pose proof (match_alt_whole_word alts alts_literal tail Ht prev w Hw) as E.
  destruct w as [|c w]; [now contradiction Hne|].
  cbn [append] in *. cbn [Re.scan Re.last_or]. unfold Re.match_here, Re.boundary.
  cbn in Hw. apply andb_prop in Hw. destruct Hw as [Hc Hw].
  cbn [Re.head Re.is_word]. rewrite Hp, Hc. cbn [xorb]. rewrite E.
  destruct (Py.mem (String c w) alts).
  - cbn [String.length pred app]. now rewrite scan_skip.
  - cbn [app]. now apply scan_inside.
Qed.

Lemma scan_join (ws : list string) :
  forall prev : option ascii,
    Re.is_word prev = false ->
    forallb Re.is_literal_word ws = true ->
    Re.scan alts prev O (Py.join " " ws)
    = filter (fun w => Py.mem w alts) ws.
Proof.
  induction ws as [|w ws IH]; intros prev Hp Hws; [reflexivity|].
  cbn in Hws. apply andb_prop in Hws. destruct Hws as [Hw Hws].
  cbn [filter]. destruct ws as [|w2 ws].
  - cbn [Py.join filter]. rewrite <- (append_empty_r w) at 1.
    rewrite (scan_word w EmptyString prev Hp Hw eq_refl).
    cbn [Re.scan]. rewrite app_nil_r. now destruct (Py.mem w alts).
  - change (Py.join " " (w :: w2 :: ws))
      with (w ++ String " " (Py.join " " (w2 :: ws))).
    rewrite (scan_word w (String " " (Py.join " " (w2 :: ws))) prev Hp Hw eq_refl).
    rewrite (scan_separator " " (Py.join " " (w2 :: ws)) _ eq_refl).
    rewrite (IH (Some " "%char) eq_refl Hws).
    now destruct (Py.mem w alts).
Qed.

End Scan.

(** ** Cleaned text *)

Lemma lower_char_idempotent (c : ascii) :
  Py.lower_char (Py.lower_char c) = Py.lower_char c.
Proof. destruct c as [[] [] [] [] [] [] [] []]; reflexivity. Qed.

Lemma isalnum_lower_char (c : ascii) :
  Py.isalnum_char (Py.lower_char c) = Py.isalnum_char c.
Proof. destruct c as [[] [] [] [] [] [] [] []]; reflexivity. Qed.

Lemma alnum_is_word_char (c : ascii) :
  Py.isalnum_char c = true -> Re.is_word_char c = true.
Proof. unfold Re.is_word_char. now intros ->. Qed.

Lemma lower_idempotent (s : string) : Py.lower (Py.lower s) = Py.lower s.
Proof.
  induction s as [|c s IH]; cbn; [reflexivity|].
  now rewrite lower_char_idempotent, IH.
Qed.

Lemma isalnum_lower (s : string) : Py.isalnum (Py.lower s) = Py.isalnum s.
Proof.
  destruct s as [|c s]; [reflexivity|]. cbn [Py.lower Py.isalnum Py.all_chars].
  rewrite isalnum_lower_char. f_equal.
  induction s as [|d s IH]; cbn; [reflexivity|].
  now rewrite isalnum_lower_char, IH.
Qed.

Lemma lower_append (s1 s2 : string) :
  Py.lower (s1 ++ s2) = Py.lower s1 ++ Py.lower s2.
Proof. induction s1 as [|c s1 IH]; cbn; [reflexivity|now rewrite IH]. Qed.

Lemma lower_join (ws : list string) :
  Py.lower (Py.join " " ws) = Py.join " " (map Py.lower ws).
Proof.
  induction ws as [|w ws IH]; [reflexivity|].
  destruct ws as [|w2 ws]; [reflexivity|].
  change (Py.join " " (w :: w2 :: ws)) with (w ++ " " ++ Py.join " " (w2 :: ws)).
  rewrite !lower_append, IH. reflexivity.
Qed.

Lemma isalnum_literal_word (w : string) :
  Py.isalnum w = true -> Re.is_literal_word w = true.
Proof.
  destruct w as [|c w]; [discriminate|]. unfold Py.isalnum, Re.is_literal_word.
  generalize (String c w). clear. intros s.
  induction s as [|d s IH]; cbn; [reflexivity|]. intros H.
  apply andb_prop in H. destruct H as [Hd Hs].
  now rewrite (alnum_is_word_char _ Hd), IH.
Qed.

Lemma clean_text_join (nltk : NLTK) (text : string) :
  clean_text nltk text = Py.join " " (Spec.cleaned_words nltk text).
Proof. reflexivity. Qed.

(** What cleaning leaves: non-empty alphanumeric lowercase words, none of
    them a stopword. *)
Lemma cleaned_words_spec (nltk : NLTK) (text word : string) :
  In word (Spec.cleaned_words nltk text) ->
  Py.isalnum word = true
  /\ Py.lower word = word
  /\ Py.mem word (stop_words nltk) = false.
Proof.
  unfold Spec.cleaned_words. intros H.
  apply filter_In in H. destruct H as [H Hstop].
  apply in_map_iff in H. destruct H as (token & <- & H).
  apply filter_In in H. destruct H as [_ Halnum].
  rewrite isalnum_lower, lower_idempotent.
  repeat split; [exact Halnum|]. now destruct (Py.mem _ _).
Qed.


Lemma map_fixed {A : Type} (f : A -> A) (l : list A) :
  (forall x, In x l -> f x = x) -> map f l = l.
Proof.
  induction l as [|x l IH]; intros H; [reflexivity|]. cbn.
  rewrite (H x (or_introl eq_refl)). f_equal. apply IH.
  intros y Hy. apply H. now right.
Qed.

Lemma lower_clean_text (nltk : NLTK) (text : string) :
  Py.lower (clean_text nltk text) = clean_text nltk text.
Proof.
  rewrite clean_text_join, lower_join. f_equal. apply map_fixed.
  intros w Hw. now apply cleaned_words_spec in Hw.
Qed.

Lemma cleaned_words_literal (nltk : NLTK) (text : string) :
  forallb Re.is_literal_word (Spec.cleaned_words nltk text) = true.
Proof.
  apply forallb_forall. intros w Hw. apply isalnum_literal_word.
  now apply cleaned_words_spec in Hw.
Qed.

(** On cleaned text every whole-word match is a cleaned word: the counter
    returns the number of cleaned words that are pronouns. *)
Lemma count_personal_pronouns_clean_text (nltk : NLTK) (text : string) :
  count_personal_pronouns (clean_text nltk text)
  = Z.of_nat (List.length (filter (fun w => Py.mem w pronouns)
                             (Spec.cleaned_words nltk text))).
Proof.
  unfold count_personal_pronouns, Re.findall_words, Py.len_list.
  rewrite lower_clean_text, clean_text_join.
  rewrite (scan_join pronouns eq_refl _ None eq_refl (cleaned_words_literal nltk text)).
  reflexivity.
Qed.

Lemma mem_filter (p : string -> bool) (w : string) (l : list string) :
  Py.mem w (filter p l) = p w && Py.mem w l.
Proof.
  unfold Py.mem.
  induction l as [|a l IH]; cbn [filter existsb]; [now rewrite andb_false_r|].
  destruct (p a) eqn:Ha; cbn [existsb]; rewrite IH;
    destruct (String.eqb_spec w a) as [->|_]; rewrite ?Ha; cbn [orb andb];
    reflexivity.
Qed.

Lemma surviving_pronouns_in_cleaned_words (nltk : NLTK) (text : string) :
  filter (fun w => Py.mem w pronouns) (Spec.cleaned_words nltk text)
  = filter (fun w => Py.mem w (Spec.surviving_pronouns nltk))
      (Spec.cleaned_words nltk text).
Proof.
  apply filter_ext_in. intros w Hw. apply cleaned_words_spec in Hw.
  destruct Hw as (_ & _ & Hstop). unfold Spec.surviving_pronouns.
  rewrite mem_filter, Hstop. reflexivity.
Qed.

(** ** ASCII text: the two readings of [lower] and [isalnum] agree *)

Lemma ascii_not_capital_i_dot (c d : ascii) :
  Utf8.is_ascii_char c = true -> Utf8.is_capital_i_dot c d = false.
Proof.
  unfold Utf8.is_ascii_char, Utf8.is_capital_i_dot. intros H.
  apply N.ltb_lt in H.
  destruct (N.eqb_spec (Py.code c) 196) as [E|_]; [lia|reflexivity].
Qed.

Lemma lower_ascii (s : string) :
  Utf8.isascii s = true -> Utf8.lower s = Py.lower s.
Proof.
  unfold Utf8.isascii.
  induction s as [|c s IH]; [reflexivity|]. cbn [Py.all_chars].
  intros H. apply andb_prop in H. destruct H as [Hc Hs].
  cbn [Utf8.lower Py.lower]. destruct s as [|d s]; [reflexivity|].
  rewrite (ascii_not_capital_i_dot c d Hc). f_equal. now apply IH.
Qed.

Lemma isalnum_ascii (s : string) :
  Utf8.isascii s = true -> Utf8.isalnum s = Py.isalnum s.
Proof.
  destruct s as [|c0 s0]; [reflexivity|]. unfold Utf8.isalnum, Py.isalnum, Utf8.isascii.
  generalize (String c0 s0). clear. intros s.
  induction s as [|c s IH]; [reflexivity|]. cbn [Py.all_chars Utf8.all_alnum].
  intros H. apply andb_prop in H. destruct H as [Hc Hs].
  destruct (Py.isalnum_char c); cbn [andb]; [now apply IH|].
  destruct s as [|d s]; [reflexivity|].
  now rewrite (ascii_not_capital_i_dot c d Hc).
Qed.

(** On a text whose tokens are ASCII, [Utf8.clean_text] is [clean_text]. *)
Lemma clean_text_ascii (nltk : NLTK) (text : string) :
  forallb Utf8.isascii (word_tokenize nltk text) = true ->
  Utf8.clean_text nltk text = clean_text nltk text.
Proof.
  intros H. rewrite forallb_forall in H. unfold Utf8.clean_text, clean_text.
  rewrite (filter_ext_in Utf8.isalnum Py.isalnum).
  2:{ intros w Hw. apply isalnum_ascii. now apply H. }
  rewrite (map_ext_in Utf8.lower Py.lower).
  2:{ intros w Hw. apply filter_In in Hw. apply lower_ascii. now apply H. }
  reflexivity.
Qed.

(** C9, as stated: the PERSONAL PRONOUNS field is 0 for every text.  The
    stopword list has [i], [we], [my] and [ours] but not [us]: the [us] of
    "They told us stories." survives cleaning and is counted. *)
Lemma personal_pronouns_not_always_zero :
  let text := "They told us stories." in
  exists r : Metrics,
    analyze_text Model.nltk text = Some r
    /\ Py.mem "us" (stop_words Model.nltk) = false
    /\ clean_text Model.nltk text = "told us stories"
    /\ PERSONAL_PRONOUNS r = 1
    /\ PERSONAL_PRONOUNS r <> 0.
Proof.
  intros text.
  destruct (analyze_text Model.nltk text) as [r|] eqn:E;
    [|vm_compute in E; discriminate].
  exists r. vm_compute in E. injection E as <-.
  repeat split. vm_compute. discriminate.
Qed.

(** Outside ASCII a match need not be a token.  The cleaned text of
    "İstanbul is great" (U+0130 first) is one word starting with [i] and
    U+0307, and [great]: the pattern matches the [i] before the combining
    mark, and the count is 1 with no pronoun among the cleaned tokens. *)
Lemma pronoun_before_combining_mark :
  let text := Utf8.capital_i_dot ++ "stanbul is great" in
  Utf8.clean_text Utf8.nltk text = Utf8.small_i_dot ++ "stanbul great"
  /\ filter (fun w => Py.mem w pronouns) (Py.split (Utf8.clean_text Utf8.nltk text)) = []
  /\ count_personal_pronouns (Utf8.clean_text Utf8.nltk text) = 1.
Proof. intros text. repeat split. Qed.

(** C9, amended: for a text whose tokens are all ASCII, the pronoun counter
    is applied to the cleaned text, where every whole-word match is a
    cleaned token, so the PERSONAL PRONOUNS field is the number of cleaned
    tokens that are pronouns outside the stopword set; it is 0 for every
    such text when all five pronouns are stopwords.  On these texts
    [clean_text] is [Utf8.clean_text] ([clean_text_ascii]). *)
Theorem personal_pronouns_counts_surviving_pronouns
  (nltk : NLTK) (text : string) (r : Metrics) :
  forallb Utf8.isascii (word_tokenize nltk text) = true ->
  analyze_text nltk text = Some r ->
  Utf8.clean_text nltk text = clean_text nltk text
  /\ PERSONAL_PRONOUNS r
  = Z.of_nat (List.length
                (filter (fun w => Py.mem w (Spec.surviving_pronouns nltk))
                   (Spec.cleaned_words nltk text)))
  /\ (forallb (fun p => Py.mem p (stop_words nltk)) pronouns = true ->
      PERSONAL_PRONOUNS r = 0).
Proof.
  intros Hascii H. split; [now apply clean_text_ascii|].
  assert (E : PERSONAL_PRONOUNS r
              = Z.of_nat (List.length
                            (filter (fun w => Py.mem w (Spec.surviving_pronouns nltk))
                               (Spec.cleaned_words nltk text)))).
  { destruct (analyze_text_inv _ _ _ H) as (avg & cwc & fog & _ & _ & _ & _ & _ & Hp & _).
    rewrite Hp, count_personal_pronouns_clean_text.
    now rewrite surviving_pronouns_in_cleaned_words. }
  split; [exact E|]. intros Hall. rewrite E.
  assert (S : Spec.surviving_pronouns nltk = []).
  { unfold Spec.surviving_pronouns.
    assert (G : forall l, forallb (fun p => Py.mem p (stop_words nltk)) l = true ->
                          filter (fun p => negb (Py.mem p (stop_words nltk))) l = []).
    { induction l as [|p l IH]; [reflexivity|]. cbn. intros Hl.
      apply andb_prop in Hl. destruct Hl as [-> Hl]. cbn. now apply IH. }
    now apply G. }
  rewrite S. clear. induction (Spec.cleaned_words nltk text); [reflexivity|assumption].
Qed.

Lemma personal_pronouns_counts_surviving_pronouns_witness :
  let text := "They told us stories." in
  forallb Utf8.isascii (word_tokenize Model.nltk text) = true
  /\ (exists r : Metrics,
     analyze_text Model.nltk text = Some r
     /\ PERSONAL_PRONOUNS r
        = Z.of_nat (List.length
                      (filter (fun w => Py.mem w (Spec.surviving_pronouns Model.nltk))
                         (Spec.cleaned_words Model.nltk text))))
  /\ (exists r : Metrics,
        analyze_text Model.nltk_with_us text = Some r
        /\ PERSONAL_PRONOUNS r = 0).
Proof.
  intros text. split; [reflexivity|]. split.
  - destruct (analyze_text Model.nltk text) as [r|] eqn:E.
    + exists r. split; [reflexivity|].
      exact (proj1 (proj2 (personal_pronouns_counts_surviving_pronouns
                             Model.nltk text r eq_refl E))).
    + vm_compute in E. discriminate.
  - destruct (analyze_text Model.nltk_with_us text) as [r|] eqn:E.
    + exists r. split; [reflexivity|].
      apply (proj2 (proj2 (personal_pronouns_counts_surviving_pronouns
                             Model.nltk_with_us text r eq_refl E))).
      reflexivity.
    + vm_compute in E. discriminate.
Defined.

(** ** Cleaning twice *)

Lemma alnum_not_space (c : ascii) :
  Py.isalnum_char c = true -> Py.isspace_char c = false.
Proof. destruct c as [[] [] [] [] [] [] [] []]; (discriminate || reflexivity). Qed.

Lemma split_from_word (w : string) :
  forall cur tail : string,
    Py.all_chars Py.isalnum_char w = true ->
    Py.split_from cur (w ++ tail) = Py.split_from (cur ++ w) tail.
Proof.
  induction w as [|c w IH]; intros cur tail Hw.
  - now rewrite append_empty_r.
  - cbn in Hw. apply andb_prop in Hw. destruct Hw as [Hc Hw].
    cbn [append Py.split_from]. rewrite (alnum_not_space _ Hc), IH by exact Hw.
    now rewrite append_assoc.
Qed.

Lemma split_join (ws : list string) :
  forallb Py.isalnum ws = true -> Py.split (Py.join " " ws) = ws.
Proof.
  unfold Py.split.
  induction ws as [|w ws IH]; [reflexivity|]. intros H.
  cbn in H. apply andb_prop in H. destruct H as [Hw Hws].
  assert (Hchars : Py.all_chars Py.isalnum_char w = true) by now destruct w.
  assert (Hflush : Py.flush w = [w]) by now destruct w.
  destruct ws as [|w2 ws].
  - cbn [Py.join]. rewrite <- (append_empty_r w) at 1.
    rewrite split_from_word by exact Hchars. exact Hflush.
  - change (Py.join " " (w :: w2 :: ws)) with (w ++ String " " (Py.join " " (w2 :: ws))).
    rewrite split_from_word by exact Hchars.
    cbn [append Py.split_from]. change (Py.isspace_char " ") with true.
    cbn iota. rewrite Hflush, (IH Hws). reflexivity.
Qed.

Lemma cleaned_words_alnum (nltk : NLTK) (text : string) :
  forallb Py.isalnum (Spec.cleaned_words nltk text) = true.
Proof.
  apply forallb_forall. intros w Hw. now apply cleaned_words_spec in Hw.
Qed.

Lemma split_cleaned (nltk : NLTK) (text : string) :
  Py.split (clean_text nltk text) = Spec.cleaned_words nltk text.
Proof.
  rewrite clean_text_join. apply split_join. apply cleaned_words_alnum.
Qed.








(** * Further properties *)

(** ** The words of a cleaned text *)

(** Splitting a cleaned text on whitespace gives back exactly the words
    that survived cleaning, in order (the words each metric re-derives
    with [clean_text(text).split()] are the cleaned tokens), and joining
    them with single spaces gives the cleaned text back. *)
Theorem split_clean_text (nltk : NLTK) (text : string) :
  Py.split (clean_text nltk text) = Spec.cleaned_words nltk text
  /\ Py.join " " (Py.split (clean_text nltk text)) = clean_text nltk text.
Proof.
  rewrite split_cleaned. split; [reflexivity|]. symmetry. apply clean_text_join.
Qed.

Lemma lower_fixed_alnum_char (c : ascii) :
  Py.isalnum_char c = true -> Py.lower_char c = c ->
  Shape.is_clean_char c = true.
Proof.
  destruct c as [[] [] [] [] [] [] [] []]; cbn; intros H1 H2;
    try reflexivity; try discriminate H1; discriminate H2.
Qed.

Lemma lower_fixed_alnum_word (w : string) :
  Py.all_chars Py.isalnum_char w = true -> Py.lower w = w ->
  Py.all_chars Shape.is_clean_char w = true.
Proof.
  induction w as [|c w IH]; [reflexivity|]. cbn [Py.all_chars Py.lower].
  intros H E. apply andb_prop in H. destruct H as [Hc Hw].
  injection E as Ec Ew. now rewrite (lower_fixed_alnum_char c Hc Ec), IH.
Qed.

Lemma all_chars_append (p : ascii -> bool) (s1 s2 : string) :
  Py.all_chars p (s1 ++ s2) = Py.all_chars p s1 && Py.all_chars p s2.
Proof.
  induction s1 as [|c s1 IH]; cbn; [reflexivity|].
  now rewrite IH, andb_assoc.
Qed.

Lemma join_clean_chars (ws : list string) :
  (forall w, In w ws -> Py.all_chars Shape.is_clean_char w = true) ->
  Py.all_chars Shape.is_clean_char (Py.join " " ws) = true.
Proof.
  induction ws as [|w ws IH]; intros H; [reflexivity|].
  destruct ws as [|w2 ws].
  - apply H. now left.
  - change (Py.join " " (w :: w2 :: ws)) with (w ++ String " " (Py.join " " (w2 :: ws))).
    rewrite all_chars_append. cbn [Py.all_chars].
    rewrite (H w (or_introl eq_refl)), IH; [reflexivity|].
    intros v Hv. apply H. now right.
Qed.

(** The cleaned form of a text whose tokens are all ASCII holds lowercase
    letters, digits and spaces only, and none of its words is a stopword
    or empty. *)
Theorem clean_text_shape (nltk : NLTK) (text : string) :
  forallb Utf8.isascii (word_tokenize nltk text) = true ->
  Py.all_chars Shape.is_clean_char (Utf8.clean_text nltk text) = true
  /\ forall word : string,
       In word (Py.split (Utf8.clean_text nltk text)) ->
       word <> EmptyString
       /\ Py.isalnum word = true
       /\ Py.mem word (stop_words nltk) = false.
Proof.
  intros Hascii. rewrite (clean_text_ascii nltk text Hascii). split.
  - rewrite clean_text_join. apply join_clean_chars. intros w Hw.
    apply cleaned_words_spec in Hw. destruct Hw as (Ha & Hl & _).
    apply lower_fixed_alnum_word; [|exact Hl]. now destruct w.
  - intros word H. rewrite split_cleaned in H.
    apply cleaned_words_spec in H. destruct H as (Ha & _ & Hs).
    repeat split; try assumption. intros ->. discriminate.
Qed.

Lemma clean_text_shape_witness :
  let text := "The Food was GOOD, but the service was bad!" in
  Utf8.clean_text Model.nltk text = "food good service bad"
  /\ Py.all_chars Shape.is_clean_char (Utf8.clean_text Model.nltk text) = true
  /\ Py.mem "good" (stop_words Model.nltk) = false.
Proof.
  intros text. split; [reflexivity|].
  destruct (clean_text_shape Model.nltk text eq_refl) as [Hchars Hwords].
  split; [exact Hchars|].
  apply (Hwords "good"). cbn. tauto.
Defined.

(** Outside ASCII the cleaned text keeps the bytes of U+0307. *)
Lemma clean_text_keeps_combining_mark :
  Py.all_chars Shape.is_clean_char
    (Utf8.clean_text Utf8.nltk (Utf8.capital_i_dot ++ "stanbul")) = false.
Proof. reflexivity. Qed.

(** ** Where the metrics fail *)

Lemma true_div_none (a b : Z) : Py.true_div a b = None <-> b = 0.
Proof.
  unfold Py.true_div. destruct (Z.eqb_spec b 0) as [->|H]; split;
    intros E; try reflexivity; try discriminate; contradiction.
Qed.

Lemma len_list_zero {A : Type} (l : list A) : Py.len_list l = 0 <-> l = [].
Proof.
  unfold Py.len_list. destruct l; cbn; split; intros H;
    try reflexivity; try discriminate; lia.
Qed.

Lemma no_token_no_word (nltk : NLTK) (text : string) :
  word_tokenize nltk text = [] -> Spec.cleaned_words nltk text = [].
Proof. unfold Spec.cleaned_words. now intros ->. Qed.

Lemma no_sentence_no_cleaned_word (nltk : NLTK) (text : string) :
  sent_tokenize nltk text = [] -> Spec.cleaned_words nltk text = [].
Proof.
  intros H. apply no_token_no_word. unfold word_tokenize. now rewrite H.
Qed.

Lemma readability_analysis_none (nltk : NLTK) (text : string) :
  readability_analysis nltk text = None <-> Spec.cleaned_words nltk text = [].
Proof.
  unfold readability_analysis. rewrite split_cleaned.
  destruct (Spec.cleaned_words nltk text) as [|w ws] eqn:E.
  - split; [reflexivity|intros _].
    destruct (Py.true_div _ _); reflexivity.
  - split; [|discriminate]. intros H. exfalso.
    destruct (Py.true_div _ (Py.len_list (sent_tokenize nltk text))) eqn:D.
    + cbn in H. discriminate.
    + apply true_div_none, len_list_zero, no_sentence_no_cleaned_word in D.
      congruence.
Qed.

Lemma syllable_count_per_word_none (nltk : NLTK) (text : string) :
  syllable_count_per_word nltk text = None <-> Spec.cleaned_words nltk text = [].
Proof.
  unfold syllable_count_per_word. rewrite split_cleaned, true_div_none.
  apply len_list_zero.
Qed.

Lemma average_word_length_none (nltk : NLTK) (text : string) :
  average_word_length nltk text = None <-> Spec.cleaned_words nltk text = [].
Proof.
  unfold average_word_length. rewrite split_cleaned, true_div_none.
  apply len_list_zero.
Qed.

(** readability_analysis, syllable_count_per_word and average_word_length
    raise ZeroDivisionError on exactly the same texts: those of which no
    word survives cleaning (the empty text, punctuation, stopwords only). *)
Theorem metrics_fail_without_words (nltk : NLTK) (text : string) :
  (readability_analysis nltk text = None <-> Spec.cleaned_words nltk text = [])
  /\ (syllable_count_per_word nltk text = None <-> Spec.cleaned_words nltk text = [])
  /\ (average_word_length nltk text = None <-> Spec.cleaned_words nltk text = []).
Proof.
  split; [|split].
  - apply readability_analysis_none.
  - apply syllable_count_per_word_none.
  - apply average_word_length_none.
Qed.

Lemma analyze_text_none (nltk : NLTK) (text : string) :
  analyze_text nltk text = None
  <-> Spec.cleaned_words nltk (clean_text nltk text) = [].
Proof.
  unfold analyze_text. set (cleaned := clean_text nltk text).
  destruct (sentiment_analysis nltk (word_tokenize nltk cleaned))
    as [[[positive negative] polarity] subjectivity].
  destruct (readability_analysis nltk cleaned) as [[[avg cwc] fog]|] eqn:R.
  - assert (Hw : Spec.cleaned_words nltk cleaned <> []).
    { intros E. apply readability_analysis_none in E. congruence. }
    cbn [Py.bind].
    destruct (syllable_count_per_word nltk cleaned) eqn:S;
      [|now apply syllable_count_per_word_none in S].
    cbn [Py.bind].
    destruct (average_word_length nltk cleaned) eqn:A;
      [|now apply average_word_length_none in A].
    cbn [Py.bind].
    destruct (Py.true_div cwc _) eqn:D.
    + cbn [Py.bind]. split; [discriminate|]. intros E. contradiction.
    + apply true_div_none, len_list_zero, no_token_no_word in D. contradiction.
  - cbn [Py.bind]. split; [intros _|reflexivity].
    now apply readability_analysis_none.
Qed.

(** analyze_text raises ZeroDivisionError exactly when cleaning the
    cleaned text leaves no word; in every other case it returns a record
    (none of its five divisions can then fail). *)
Theorem analyze_text_fails_iff (nltk : NLTK) (text : string) :
  (analyze_text nltk text = None
   <-> Py.split (clean_text nltk (clean_text nltk text)) = [])
  /\ (Spec.cleaned_words nltk text = [] ->
      word_tokenize nltk EmptyString = [] ->
      analyze_text nltk text = None).
Proof.
  split.
  - rewrite split_cleaned. apply analyze_text_none.
  - intros Hw Ht. apply analyze_text_none.
    rewrite clean_text_join, Hw. cbn [Py.join]. now apply no_token_no_word.
Qed.

Lemma analyze_text_fails_iff_witness :
  analyze_text Model.nltk "It is what it is." = None.
Proof.
  apply (proj2 (analyze_text_fails_iff Model.nltk "It is what it is."));
    reflexivity.
Defined.

(** ** The batch drivers, row by row *)

Section DriverRuns.

Variable web : Web.
Variable nltk : NLTK.

Lemma analysed_row_has_text (row : InputRow) :
  Spec.has_title_and_body web row = true ->
  exists text : string, snd (Spec.fetched web row) = Some text.
Proof.
  unfold Spec.has_title_and_body. intros H. apply andb_prop in H.
  destruct H as [_ H]. destruct (snd (Spec.fetched web row)) as [text|];
    [now exists text|discriminate].
Qed.

Lemma main_loop_analysed (row : InputRow) (rows : list InputRow)
  (results : list OutputRow) (text : string) :
  Spec.has_title_and_body web row = true ->
  snd (Spec.fetched web row) = Some text ->
  main_loop web nltk (row :: rows) results
  = let* analysis := analyze_text nltk text in
    main_loop web nltk rows
      (results ++ [ {| analysis_results := analysis;
                       out_URL_ID := URL_ID row;
                       out_URL := URL row |} ])%list.
Proof.
  unfold Spec.has_title_and_body, Spec.fetched. intros H T.
  cbn [main_loop].
  destruct (extract_article_info web (URL row)) as [title body].
  cbn [fst snd] in H, T. rewrite H, T. reflexivity.
Qed.

Lemma main_loop_fails (rows : list InputRow) :
  forall results : list OutputRow,
    main_loop web nltk rows results = None
    <-> exists (row : InputRow) (text : string),
          In row rows
          /\ Spec.has_title_and_body web row = true
          /\ snd (Spec.fetched web row) = Some text
          /\ analyze_text nltk text = None.
Proof.
  induction rows as [|row rows IH]; intros results.
  - cbn. split; [discriminate|]. now intros (row & text & [] & _).
  - destruct (Spec.has_title_and_body web row) eqn:E.
    + destruct (analysed_row_has_text row E) as [text T].
      rewrite (main_loop_analysed row rows results text E T).
      destruct (analyze_text nltk text) as [analysis|] eqn:A; cbn [Py.bind].
      * rewrite IH. split; intros (r & t & Hin & H).
        -- exists r, t. split; [now right|exact H].
        -- destruct Hin as [<-|Hin]; [|now exists r, t].
           destruct H as (_ & T' & A'). congruence.
      * split; [intros _|reflexivity]. exists row, text.
        repeat split; try assumption. now left.
    + rewrite (main_loop_skip web nltk row rows results E), IH.
      split; intros (r & t & Hin & H).
      * exists r, t. split; [now right|exact H].
      * destruct Hin as [<-|Hin]; [|now exists r, t].
        destruct H as (E' & _). congruence.
Qed.

(** main has no [try] around the analysis: the run is lost (no output file
    is written) exactly when the batch holds one fetched article on which
    analyze_text raises, that is, one whose twice-cleaned text is empty. *)
Theorem main_fails_iff (df : list InputRow) :
  main web nltk df = None
  <-> exists (row : InputRow) (text : string),
        In row df
        /\ Spec.has_title_and_body web row = true
        /\ snd (Spec.fetched web row) = Some text
        /\ Py.split (clean_text nltk (clean_text nltk text)) = [].
Proof.
  unfold main. rewrite main_loop_fails.
  split; intros (row & text & Hin & E & T & A); exists row, text;
    repeat split; try assumption.
  - rewrite split_cleaned. now apply analyze_text_none.
  - apply analyze_text_none. now rewrite <- split_cleaned.
Qed.

Lemma main_loop_rows (rows : list InputRow) :
  forall acc results : list OutputRow,
    main_loop web nltk rows acc = Some results ->
    exists new : list OutputRow,
      results = (acc ++ new)%list
      /\ Forall2 (Shape.row_matches web nltk)
           (filter (Spec.has_title_and_body web) rows) new.
Proof.
  induction rows as [|row rows IH]; intros acc results H.
  - cbn in H. injection H as <-. exists []. rewrite app_nil_r.
    split; [reflexivity|constructor].
  - cbn [filter]. destruct (Spec.has_title_and_body web row) eqn:E.
    + destruct (analysed_row_has_text row E) as [text T].
      rewrite (main_loop_analysed row rows acc text E T) in H.
      destruct (analyze_text nltk text) as [analysis|] eqn:A; [|discriminate].
      cbn [Py.bind] in H. destruct (IH _ _ H) as (new & -> & Hnew).
      eexists (_ :: new). rewrite <- app_assoc. split; [reflexivity|].
      constructor; [|exact Hnew]. split; [reflexivity|].
      exists text. now split.
    + rewrite (main_loop_skip web nltk row rows acc E) in H. exact (IH _ _ H).
Qed.

(** When main completes, its output is, in input order, one row per
    article fetched with a title and a body, each carrying that row's
    URL_ID and URL and the metrics analyze_text gives for that body. *)
Theorem main_rows_match (df : list InputRow) (results : list OutputRow) :
  main web nltk df = Some results ->
  Forall2 (Shape.row_matches web nltk)
    (filter (Spec.has_title_and_body web) df) results.
Proof.
  intros H. destruct (main_loop_rows _ _ _ H) as (new & -> & Hnew).
  exact Hnew.
Qed.

(** The loop of main is sequential: a batch in two parts gives the rows of
    the first part followed by those of the second, and a failure in the
    first part ends the run before the second is fetched. *)
Theorem main_loop_app (rows1 rows2 : list InputRow) :
  forall results : list OutputRow,
    main_loop web nltk (rows1 ++ rows2) results
    = let* results1 := main_loop web nltk rows1 results in
      main_loop web nltk rows2 results1.
Proof.
  induction rows1 as [|row rows1 IH]; intros results; [reflexivity|].
  cbn [app]. destruct (Spec.has_title_and_body web row) eqn:E.
  - destruct (analysed_row_has_text row E) as [text T].
    rewrite !(main_loop_analysed row _ results text E T).
    destruct (analyze_text nltk text); cbn [Py.bind]; [apply IH|reflexivity].
  - rewrite !(main_loop_skip web nltk row _ results E). apply IH.
Qed.

End DriverRuns.

Lemma main_fails_iff_witness :
  main Model.web Model.nltk
    [ {| URL_ID := "1"; URL := "http://site/full" |};
      {| URL_ID := "5"; URL := "http://site/stopwords" |} ] = None.
Proof.
  apply (proj2 (main_fails_iff Model.web Model.nltk _)).
  exists {| URL_ID := "5"; URL := "http://site/stopwords" |}, "It is what it is.".
  repeat split; try reflexivity. right. now left.
Defined.

Lemma main_rows_match_witness :
  exists results : list OutputRow,
    main Model.web Model.nltk Model.batch = Some results
    /\ Forall2 (Shape.row_matches Model.web Model.nltk)
         (filter (Spec.has_title_and_body Model.web) Model.batch) results.
Proof.
  destruct (main Model.web Model.nltk Model.batch) as [results|] eqn:E.
  - exists results. split; [reflexivity|].
    apply (main_rows_match Model.web Model.nltk Model.batch results E).
  - vm_compute in E. discriminate.
Defined.

Section TwoDrivers.

Variable web : Web.
Variable nltk : NLTK.

Lemma loops_agree (rows : list InputRow) :
  forall (outs : list OutputRow) (arts : list Article),
    Forall2 Shape.same_scores outs arts ->
    Shape.drivers_agree (main_loop web nltk rows outs)
      (scrape_loop web nltk rows arts).
Proof.
  induction rows as [|row rows IH]; intros outs arts H; [exact H|].
  cbn [main_loop scrape_loop].
  destruct (extract_article_info web (URL row)) as [title body].
  destruct (Py.truthy title && Py.truthy body); [|now apply IH].
  destruct body as [text|]; [|now apply IH].
  unfold analyze_text. set (cleaned := clean_text nltk text).
  destruct (sentiment_analysis nltk (word_tokenize nltk cleaned))
    as [[[positive negative] polarity] subjectivity].
  destruct (readability_analysis nltk cleaned) as [[[avg cwc] fog]|] eqn:R;
    cbn [Py.bind]; [|exact I].
  destruct (syllable_count_per_word nltk cleaned); cbn [Py.bind]; [|exact I].
  destruct (average_word_length nltk cleaned); cbn [Py.bind]; [|exact I].
  destruct (Py.true_div cwc _) eqn:D; cbn [Py.bind].
  - apply IH. apply Forall2_app; [exact H|].
    constructor; [|constructor]. unfold Shape.same_scores. cbn.
    repeat split.
  - exfalso.
    apply true_div_none, len_list_zero, no_token_no_word in D.
    apply readability_analysis_none in D. congruence.
Qed.

(** The two drivers are one pipeline written twice: on every batch they
    fail together or complete together, and then give the same articles in
    the same order with the same scores (main adds the percentage of
    complex words and the word count, a division that cannot fail once the
    others have succeeded). *)
Theorem main_and_scrape_articles_agree (df : list InputRow) :
  Shape.drivers_agree (main web nltk df) (scrape_articles web nltk df).
Proof. apply loops_agree. constructor. Qed.

End TwoDrivers.

(** ** Which rows are analysed *)

Lemma blank_lstrip (s : string) : Shape.blank (Py.lstrip s) = Shape.blank s.
Proof.
  unfold Shape.blank. induction s as [|c s IH]; [reflexivity|].
  cbn [Py.lstrip Py.all_chars]. destruct (Py.isspace_char c) eqn:E.
  - exact IH.
  - cbn [Py.all_chars]. now rewrite E.
Qed.

Lemma rstrip_empty (s : string) :
  match Py.rstrip s with
  | EmptyString => true
  | String _ _ => false
  end = Shape.blank s.
Proof.
  unfold Shape.blank. induction s as [|c s IH]; [reflexivity|].
  cbn [Py.rstrip Py.all_chars]. rewrite <- IH.
  destruct (Py.rstrip s); destruct (Py.isspace_char c); reflexivity.
Qed.

(** After [strip()], a string is truthy when it held a character that is
    not whitespace. *)
Lemma truthy_strip (s : option string) :
  Py.truthy (option_map Py.strip s)
  = match s with
    | Some s => negb (Shape.blank s)
    | None => false
    end.
Proof.
  destruct s as [s|]; [|reflexivity]. cbn [option_map Py.truthy].
  unfold Py.strip. rewrite <- (blank_lstrip s), <- rstrip_empty.
  now destruct (Py.rstrip (Py.lstrip s)).
Qed.

(** A row reaches the analysis exactly when its page loads without an
    exception, the title element and the content element are both
    present, and each holds at least one character that is not
    whitespace. *)
Theorem row_analysed_iff (web : Web) (row : InputRow) :
  Spec.has_title_and_body web row = true
  <-> exists (soup : page web) (title content : string),
        get_soup web (URL row) = Some soup
        /\ find_entry_title web soup = Some title
        /\ find_post_content web soup = Some content
        /\ Shape.blank title = false
        /\ Shape.blank content = false.
Proof.
  unfold Spec.has_title_and_body, Spec.fetched, extract_article_info.
  destruct (get_soup web (URL row)) as [soup|].
  - cbn [fst snd]. rewrite !truthy_strip. split.
    + intros H. apply andb_prop in H. destruct H as [Ht Hc].
      destruct (find_entry_title web soup) as [title|] eqn:Et; [|discriminate].
      destruct (find_post_content web soup) as [content|] eqn:Ec; [|discriminate].
      apply negb_true_iff in Ht, Hc. now exists soup, title, content.
    + intros (soup' & title & content & E & Et & Ec & Ht & Hc).
      injection E as <-. now rewrite Et, Ec, Ht, Hc.
  - cbn. split; [discriminate|]. now intros (? & ? & ? & ? & _).
Qed.

(** ** Pronouns in plain text *)




(** ** Syllables, again *)

Lemma count_syllables_loop_bounds (word : string) :
  forall (n : Z) (prev : bool),
    let r := fst (count_syllables_loop (n, prev) word) in
    n <= r
    /\ 2 * (r - n) <= Py.len word + (if prev then 0 else 1)
    /\ r - n <= Shape.count_vowels word.
Proof.
  unfold Py.len. cbn zeta.
  induction word as [|c word IH]; intros n prev.
  - cbn [count_syllables_loop fst String.length Shape.count_vowels].
    destruct prev; lia.
  - cbn [count_syllables_loop Shape.count_vowels String.length].
    rewrite count_syllables_step_flag. cbn [fst snd].
    specialize (IH (n + (if Spec.is_vowel c && negb prev then 1 else 0))
                   (Spec.is_vowel c)).
    destruct IH as (H1 & H2 & H3).
    destruct (Spec.is_vowel c), prev; cbn [andb negb] in *; lia.
Qed.

(** Vowel runs are separated by at least one other character, so a word
    of n characters has at most (n + 1) / 2 syllables, and never more
    syllables than vowels; the count is never negative. *)
Theorem count_syllables_bounds (word : string) :
  0 <= count_syllables word
  /\ 2 * count_syllables word <= Py.len word + 1
  /\ count_syllables word <= Shape.count_vowels word.
Proof.
  unfold count_syllables.
  pose proof (count_syllables_loop_bounds word 0 false) as H.
  cbn zeta in H. lia.
Qed.

(** In the complex-word test [len(word) > 6 and count_syllables(word) > 3]
    the length condition never decides: four vowel runs need seven
    characters, so a word is complex exactly when it has more than three
    syllables. *)
Lemma complex_word_iff_syllables (word : string) :
  is_complex word = (3 <? count_syllables word).
Proof.
  unfold is_complex.
  pose proof (count_syllables_loop_bounds word 0 false) as H.
  cbn zeta in H. fold (count_syllables word) in H.
  destruct (Z.ltb_spec 3 (count_syllables word)) as [Hc|Hc].
  - rewrite andb_true_r. apply Z.ltb_lt. lia.
  - apply andb_false_r.
Qed.

(** A word is complex exactly when it has more than three syllables, and
    a complex word has at least seven characters: the length condition of
    the test never decides. *)
Theorem complex_word_iff_four_syllables (word : string) :
  is_complex word = (3 <? count_syllables word)
  /\ (3 < count_syllables word -> 6 < Py.len word).
Proof.
  split; [apply complex_word_iff_syllables|].
  pose proof (count_syllables_loop_bounds word 0 false) as H.
  cbn zeta in H. fold (count_syllables word) in H. lia.
Qed.

Lemma complex_word_iff_four_syllables_witness : 6 < Py.len "education".
Proof.
  apply (proj2 (complex_word_iff_four_syllables "education")). reflexivity.
Defined.

(** ** Sentiment counts *)

Lemma filter_length_le {A : Type} (p : A -> bool) (l : list A) :
  (List.length (filter p l) <= List.length l)%nat.
Proof.
  induction l as [|x l IH]; cbn; [lia|]. destruct (p x); cbn; lia.
Qed.

Lemma mem_In (w : string) (l : list string) : Py.mem w l = true <-> In w l.
Proof.
  unfold Py.mem. rewrite existsb_exists. split.
  - intros (a & Ha & E). apply String.eqb_eq in E. now subst.
  - intros H. exists w. split; [exact H|apply String.eqb_refl].
Qed.

Lemma disjoint_filters_length (p q : string -> bool) (l : list string) :
  (forall w, p w = true -> q w = false) ->
  (List.length (filter p l) + List.length (filter q l) <= List.length l)%nat.
Proof.
  intros D. induction l as [|x l IH]; cbn; [lia|].
  destruct (p x) eqn:P.
  - rewrite (D x P). cbn. lia.
  - destruct (q x); cbn; lia.
Qed.

(** Each score counts tokens, so it lies between 0 and the number of
    tokens; when the two lexicons share no word the scores add up to at
    most the number of tokens. *)
Theorem sentiment_counts_bounded (nltk : NLTK) (tokens : list string) :
  let '(positive, negative, _, _) := sentiment_analysis nltk tokens in
  0 <= positive <= Py.len_list tokens
  /\ 0 <= negative <= Py.len_list tokens
  /\ (forallb (fun w => negb (Py.mem w (negative_words nltk)))
        (positive_words nltk) = true ->
      positive + negative <= Py.len_list tokens).
Proof.
  unfold sentiment_analysis. rewrite !sum_ones_filter. unfold Py.len_list.
  pose proof (filter_length_le (fun w => Py.mem w (positive_words nltk)) tokens).
  pose proof (filter_length_le (fun w => Py.mem w (negative_words nltk)) tokens).
  repeat split; try lia. intros D.
  pose proof (disjoint_filters_length
                (fun w => Py.mem w (positive_words nltk))
                (fun w => Py.mem w (negative_words nltk)) tokens) as L.
  cbn beta in L. assert (L' := L). clear L. 
  enough (forall w, Py.mem w (positive_words nltk) = true ->
                    Py.mem w (negative_words nltk) = false) as G.
  { specialize (L' G). lia. }
  intros w Hw. apply mem_In in Hw.
  rewrite forallb_forall in D. specialize (D w Hw).
  now apply negb_true_iff in D.
Qed.

Lemma sentiment_counts_bounded_witness :
  let '(positive, negative, _, _) :=
    sentiment_analysis Model.nltk ["good"; "bad"; "food"; "great"] in
  positive + negative <= 4.
Proof.
  pose proof (sentiment_counts_bounded Model.nltk ["good"; "bad"; "food"; "great"]) as H.
  destruct (sentiment_analysis Model.nltk ["good"; "bad"; "food"; "great"])
    as [[[positive negative] polarity] subjectivity].
  destruct H as (_ & _ & H). apply H. reflexivity.
Defined.

Lemma filter_length_permutation {A : Type} (p : A -> bool) (l1 l2 : list A) :
  Permutation l1 l2 -> List.length (filter p l1) = List.length (filter p l2).
Proof.
  induction 1 as [|x l1 l2 _ IH|x y l|l1 l2 l3 _ IH1 _ IH2]; cbn.
  - reflexivity.
  - destruct (p x); cbn; now rewrite IH.
  - destruct (p x), (p y); reflexivity.
  - now rewrite IH1.
Qed.

(** The four sentiment scores depend on which tokens occur and how often,
    not on their order. *)
Theorem sentiment_analysis_permutation (nltk : NLTK) (tokens1 tokens2 : list string) :
  Permutation tokens1 tokens2 ->
  sentiment_analysis nltk tokens1 = sentiment_analysis nltk tokens2.
Proof.
  intros P. unfold sentiment_analysis. rewrite !sum_ones_filter.
  rewrite (filter_length_permutation _ _ _ P).
  rewrite (filter_length_permutation (fun w => Py.mem w (negative_words nltk)) _ _ P).
  unfold Py.len_list. now rewrite (Permutation_length P).
Qed.

Lemma sentiment_analysis_permutation_witness :
  sentiment_analysis Model.nltk ["good"; "food"; "bad"]
  = sentiment_analysis Model.nltk ["food"; "good"; "bad"].
Proof.
  apply (sentiment_analysis_permutation Model.nltk). apply perm_swap.
Defined.

(** ** Complex words and silent words *)

(** The complex-word count that readability_analysis returns is the number
    of cleaned words with more than three syllables, and it never exceeds
    the number of cleaned words. *)
Theorem readability_complex_word_count
  (nltk : NLTK) (text : string) (avg fog : float) (complex_word_count : Z) :
  readability_analysis nltk text = Some (avg, complex_word_count, fog) ->
  complex_word_count
  = Z.of_nat (List.length (filter (fun word => 3 <? count_syllables word)
                             (Spec.cleaned_words nltk text)))
  /\ 0 <= complex_word_count <= Py.len_list (Spec.cleaned_words nltk text).
Proof.
  unfold readability_analysis. rewrite split_cleaned, sum_ones_filter.
  intros H.
  destruct (Py.true_div _ _); [|discriminate]. cbn [Py.bind] in H.
  destruct (Py.true_div _ _); [|discriminate]. cbn [Py.bind] in H.
  injection H as _ <- _.
  rewrite (filter_ext _ _ complex_word_iff_syllables).
  split; [reflexivity|]. unfold Py.len_list.
  pose proof (filter_length_le (fun word => 3 <? count_syllables word)
                (Spec.cleaned_words nltk text)).
  lia.
Qed.

Lemma readability_complex_word_count_witness :
  exists (avg fog : float) (complex_word_count : Z),
    readability_analysis Model.nltk "An unbelievable education." 
    = Some (avg, complex_word_count, fog)
    /\ complex_word_count = 2.
Proof.
  destruct (readability_analysis Model.nltk "An unbelievable education.")
    as [[[avg cwc] fog]|] eqn:E; [|vm_compute in E; discriminate].
  exists avg, fog, cwc. split; [reflexivity|].
  rewrite (proj1 (readability_complex_word_count Model.nltk _ avg fog cwc E)).
  reflexivity.
Defined.

Lemma count_syllables_loop_vowel (word : string) :
  forall n : Z,
    0 < Shape.count_vowels word ->
    n < fst (count_syllables_loop (n, false) word).
Proof.
  induction word as [|c word IH]; intros n H.
  - cbn in H. lia.
  - cbn [count_syllables_loop Shape.count_vowels] in *.
    rewrite count_syllables_step_flag. cbn [fst snd].
    destruct (Spec.is_vowel c) eqn:V; cbn [andb negb].
    + pose proof (count_syllables_loop_bounds word (n + 1) true) as B.
      cbn zeta in B. lia.
    + replace (n + 0) with n by lia. apply IH. lia.
Qed.

Lemma count_vowels_nonneg (word : string) : 0 <= Shape.count_vowels word.
Proof.
  induction word as [|c word IH]; cbn [Shape.count_vowels]; [lia|].
  destruct (Spec.is_vowel c); lia.
Qed.

(** A word has no syllable exactly when it holds none of the lowercase
    letters a, e, i, o, u: a word in capitals, or one like "rhythm", counts
    for nothing in the syllable average. *)
Theorem count_syllables_zero_iff (word : string) :
  count_syllables word = 0 <-> Shape.count_vowels word = 0.
Proof.
  pose proof (count_syllables_loop_bounds word 0 false) as B. cbn zeta in B.
  pose proof (count_vowels_nonneg word) as N.
  fold (count_syllables word) in B. split; intros H.
  - destruct (Z.eq_dec (Shape.count_vowels word) 0) as [E|E]; [exact E|].
    pose proof (count_syllables_loop_vowel word 0) as V.
    fold (count_syllables word) in V. lia.
  - lia.
Qed.

(** ** Matches of the pronoun pattern *)

Lemma match_alt_in (alts : list string) (prev : option ascii) (s w : string) :
  Re.match_alt alts prev s = Some w -> In w alts.
Proof.
  induction alts as [|a alts IH]; [discriminate|]. cbn [Re.match_alt].
  destruct (Re.strip_prefix a prev s) as [[last rest]|].
  - destruct (Re.boundary last (Re.head rest)).
    + intros E. injection E as <-. now left.
    + intros E. right. now apply IH.
  - intros E. right. now apply IH.
Qed.

Lemma scan_matches (alts : list string) (s : string) :
  forall (prev : option ascii) (skip : nat),
    Forall (fun w => In w alts) (Re.scan alts prev skip s)
    /\ (List.length (Re.scan alts prev skip s) <= String.length s)%nat.
Proof.
  induction s as [|c s IH]; intros prev skip.
  - cbn. split; [constructor|lia].
  - cbn [Re.scan String.length]. destruct skip as [|k].
    + unfold Re.match_here.
      destruct (Re.boundary prev (Re.head (String c s))).
      * destruct (Re.match_alt alts prev (String c s)) as [w|] eqn:M.
        -- destruct (IH (Some c) (pred (String.length w))) as [F L].
           split; [constructor; [now apply match_alt_in in M|exact F]|cbn; lia].
        -- destruct (IH (Some c) O) as [F L]. split; [exact F|lia].
      * destruct (IH (Some c) O) as [F L]. split; [exact F|lia].
    + destruct (IH (Some c) k) as [F L]. split; [exact F|lia].
Qed.

Lemma length_lower (s : string) : String.length (Py.lower s) = String.length s.
Proof. induction s as [|c s IH]; cbn; [reflexivity|now rewrite IH]. Qed.

(** On any text whatever, count_personal_pronouns lies between 0 and the
    length of the text: every match is one of the five pronouns and
    matches do not overlap. *)
Theorem count_personal_pronouns_bounds (text : string) :
  0 <= count_personal_pronouns text <= Py.len text
  /\ Forall (fun w => In w pronouns) (Re.findall_words pronouns (Py.lower text)).
Proof.
  unfold count_personal_pronouns, Re.findall_words, Py.len_list, Py.len.
  destruct (scan_matches pronouns (Py.lower text) None O) as [F L].
  rewrite length_lower in L. split; [lia|exact F].
Qed.
